(** * Quality gate of the TODO / sniff integration script

    A shallow embedding of [scripts/todo_sniff_integration.py] (class
    [SniffTodoWorkflow]) and the properties of its gate and of its task
    life cycle.

    - Python values are a small universe [pyval]; a [dict] is a finite map
      from strings, a [list] is a list.
    - The todo dictionaries are mutated in place and the list holding them
      is handed back to the caller, so both live in a store of objects and
      are passed by reference ([loc]).
    - Every method runs in a monad threading the store, what was printed,
      and the number of analyzer calls; an exception is an outcome of its
      own, and the state at the point of the raise is kept.
    - Standard output is assumed to take every message: [print] itself
      does not raise (no encoding error, no closed pipe). What is said
      below about calls that return normally is said under this
      assumption; what is said about calls that raise, or about which
      reports make a call raise, does not depend on it. *)

From Stdlib Require Import ZArith QArith String List Bool.
From stdpp Require Import base option gmap strings list.
Set Warnings "-register-all".

Open Scope string_scope.
Open Scope list_scope.
Open Scope Z_scope.

(** ** Python values *)

(** A Python [float]: finite values are kept exactly, as rationals (every
    binary64 value is one), next to the two infinities and NaN, all of
    which [json.loads] produces. *)
Inductive pyfloat :=
| FNan
| FInf (negative : bool)
| FFin (q : Q).

Inductive pyval :=
| VNone
| VBool (b : bool)
| VInt (z : Z)
| VFloat (f : pyfloat)
| VStr (s : string)
| VList (l : list pyval)
| VDict (d : gmap string pyval).

Abbreviation pydict := (gmap string pyval).

Inductive exn :=
| TypeError
| KeyError
| AttributeError
| ValueError
| JSONDecodeError
| OSError
| OverflowError.

Inductive result (A : Type) :=
| Ok (a : A)
| Raise (e : exn).
Arguments Ok {A} a.
Arguments Raise {A} e.

(** *** Numbers

    [bool], [int] and [float] compare with one another by mathematical
    value; [xnum] is that value. *)
Inductive xnum :=
| XNan
| XNegInf
| XFin (q : Q)
| XPosInf.

Definition as_num (v : pyval) : option xnum :=
  match v with
  | VBool b => Some (XFin (if b then 1%Q else 0%Q))
  | VInt z => Some (XFin (inject_Z z))
  | VFloat FNan => Some XNan
  | VFloat (FInf true) => Some XNegInf
  | VFloat (FInf false) => Some XPosInf
  | VFloat (FFin q) => Some (XFin q)
  | _ => None
  end.

Definition Qlt_bool (p q : Q) : bool := negb (Qle_bool q p).

Definition x_lt (a b : xnum) : bool :=
  match a, b with
  | XNan, _ | _, XNan => false
  | XNegInf, XNegInf => false
  | XNegInf, _ => true
  | XFin _, XNegInf => false
  | XFin p, XFin q => Qlt_bool p q
  | XFin _, XPosInf => true
  | XPosInf, _ => false
  end.

Definition x_eq (a b : xnum) : bool :=
  match a, b with
  | XNegInf, XNegInf => true
  | XFin p, XFin q => Qeq_bool p q
  | XPosInf, XPosInf => true
  | _, _ => false
  end.

Definition x_le (a b : xnum) : bool := x_lt a b || x_eq a b.

(** *** [==]

    Never raises on these types. Values of different kinds are unequal,
    except numbers, which compare by value. Containers compare their
    elements by value. *)
Fixpoint py_eq (a b : pyval) : bool :=
  match a, b with
  | VNone, VNone => true
  | VStr s, VStr t => String.eqb s t
  | VList l1, VList l2 =>
      (fix go (l1 l2 : list pyval) : bool :=
         match l1, l2 with
         | [], [] => true
         | x :: xs, y :: ys => py_eq x y && go xs ys
         | _, _ => false
         end) l1 l2
  | VDict d1, VDict d2 =>
      Nat.eqb (size d1) (size d2) &&
      map_fold (λ k v acc,
          acc && match d2 !! k with Some w => py_eq v w | None => false end)
        true d1
  | (VBool _ | VInt _ | VFloat _), (VBool _ | VInt _ | VFloat _) =>
      match as_num a, as_num b with
      | Some x, Some y => x_eq x y
      | _, _ => false
      end
  | _, _ => false
  end.

(** *** [<], [>], [<=], [>=]

    Defined between numbers, between strings (by code unit, which for
    UTF-8 is the order of code points) and between lists
    (lexicographically: the first pair of unequal elements decides);
    [TypeError] otherwise. [strict] selects [<] or [<=]. *)
Fixpoint py_order (strict : bool) (a b : pyval) : result bool :=
  match a, b with
  | VStr s, VStr t => Ok (if strict then String.ltb s t else String.leb s t)
  | VList l1, VList l2 =>
      (fix go (l1 l2 : list pyval) : result bool :=
         match l1, l2 with
         | [], [] => Ok (negb strict)
         | [], _ :: _ => Ok true
         | _ :: _, [] => Ok false
         | x :: xs, y :: ys =>
             if py_eq x y then go xs ys else py_order strict x y
         end) l1 l2
  | _, _ =>
      match as_num a, as_num b with
      | Some x, Some y => Ok (if strict then x_lt x y else x_le x y)
      | _, _ => Raise TypeError
      end
  end.

Definition py_lt (a b : pyval) : result bool := py_order true a b.
Definition py_le (a b : pyval) : result bool := py_order false a b.
Definition py_gt (a b : pyval) : result bool := py_order true b a.
Definition py_ge (a b : pyval) : result bool := py_order false b a.

(** Truth value of an object ([if x], [not x]). *)
Definition py_truthy (v : pyval) : bool :=
  match v with
  | VNone => false
  | VBool b => b
  | VInt z => negb (z =? 0)
  | VFloat (FFin q) => negb (Qeq_bool q 0)
  | VFloat _ => true
  | VStr s => negb (String.eqb s "")
  | VList l => negb (Nat.eqb (length l) 0)
  | VDict d => negb (Nat.eqb (size d) 0)
  end.

(** [len(x)] *)
Definition py_len (v : pyval) : result Z :=
  match v with
  | VStr s => Ok (Z.of_nat (String.length s))
  | VList l => Ok (Z.of_nat (length l))
  | VDict d => Ok (Z.of_nat (size d))
  | _ => Raise TypeError
  end.

(** Does [needle] occur in [s]? ([needle in s] for two strings.) *)
Fixpoint is_substring (needle s : string) : bool :=
  String.prefix needle s ||
  match s with
  | EmptyString => false
  | String _ rest => is_substring needle rest
  end.

(** [key in x] for a string [key]: a key of a dict, an element of a list,
    a substring of a string; other objects are not containers. *)
Definition py_contains (key : string) (v : pyval) : result bool :=
  match v with
  | VDict d => Ok (bool_decide (is_Some (d !! key)))
  | VList l => Ok (existsb (py_eq (VStr key)) l)
  | VStr s => Ok (is_substring key s)
  | _ => Raise TypeError
  end.

(** [x.get(key, default)]: only a dict has the method. *)
Definition py_get (v : pyval) (key : string) (dflt : pyval) : result pyval :=
  match v with
  | VDict d => Ok (default dflt (d !! key))
  | _ => Raise AttributeError
  end.

(** The format specification [:.1f] converts an [int] to a [float]
    first. The conversion rounds to nearest, so it succeeds exactly for
    the integers of absolute value below [2^1024 - 2^970], half way
    between the largest float and [2^1024]. *)
Definition float_overflow : Z := 2 ^ 1024 - 2 ^ 970.

(** The values [:.1f] formats: a bool, a float (NaN and the infinities
    included), an int that converts to a float. *)
Definition formats_1f (v : pyval) : bool :=
  match v with
  | VBool _ | VFloat _ => true
  | VInt z => Z.abs z <? float_overflow
  | _ => false
  end.

(** The format specification [:.1f] is accepted by numbers only: an int
    too large for a float raises [OverflowError]; a string rejects the
    code [f] ([ValueError]); [None], lists and dicts reject any non-empty
    specification ([TypeError]). *)
Definition fmt_1f (v : pyval) : result unit :=
  match v with
  | VBool _ | VFloat _ => Ok tt
  | VInt z =>
      if Z.abs z <? float_overflow then Ok tt else Raise OverflowError
  | VStr _ => Raise ValueError
  | _ => Raise TypeError
  end.

(** Iterating over an object ([for x in obj]): the elements of a list, the
    characters of a string, the keys of a dict. *)
Fixpoint chars (s : string) : list pyval :=
  match s with
  | EmptyString => []
  | String c rest => VStr (String c EmptyString) :: chars rest
  end.

Definition py_iter (v : pyval) : result (list pyval) :=
  match v with
  | VList l => Ok l
  | VStr s => Ok (chars s)
  | VDict d => Ok (VStr <$> (map_to_list d).*1)
  | _ => Raise TypeError
  end.

(** [obj[:n]]: lists and strings can be sliced; numbers and [None] cannot
    be subscripted and a dict rejects a slice as a key ([TypeError] up to
    Python 3.11, [KeyError] from 3.12 on; kept as [TypeError]). *)
Definition py_slice_to (n : nat) (v : pyval) : result pyval :=
  match v with
  | VList l => Ok (VList (take n l))
  | VStr s => Ok (VStr (String.substring 0 (Nat.min n (String.length s)) s))
  | _ => Raise TypeError
  end.

(** The receiver of a string method ([.strip()], [.lower()]) must be a
    string. *)
Definition as_str (v : pyval) : result string :=
  match v with
  | VStr s => Ok s
  | _ => Raise AttributeError
  end.

(** ** Store, output and effects *)

Definition loc := positive.

(** The objects the workflow shares with its caller: a todo (a dict whose
    values are plain data) and the list of todos (a list of references,
    so that one todo may sit at several positions). *)
Inductive object :=
| ODict (d : pydict)
| OList (items : list loc).

(** What the script prints. A message is kept as its kind and the values
    formatted into it; the rendering itself (icons, [strip], truncation
    to 60 characters, one decimal digit) is not represented. *)
Inductive event :=
| MsgSniffFailed (e : string)
| MsgCriticalFound (critical_issues max_critical : pyval)
| MsgQualityBelow (avg_quality min_quality : pyval)
| MsgGatePassed (avg_quality total_issues : pyval)
| MsgResultsHeader
| MsgFileHeader (file_path quality : pyval)
| MsgIssue (severity : string) (rule line : pyval) (snippet : string)
| MsgMoreIssues (n : Z)
| MsgNotFound (todo_id : string)
| MsgCompletedNoFiles (todo_id : string)
| MsgRunning (n : Z)
| MsgCompletedVerified (todo_id : string)
| MsgNeedsRevision (todo_id : string).

Record world := World {
  heap : gmap loc object;
  printed : list event;     (* oldest first *)
  sniff_calls : nat         (* calls of [run_sniff_analysis] so far *)
}.

Definition M (A : Type) : Type := world → result A * world.

Definition ret {A} (a : A) : M A := λ w, (Ok a, w).
Definition raise {A} (e : exn) : M A := λ w, (Raise e, w).
Definition bind {A B} (m : M A) (k : A → M B) : M B :=
  λ w, match m w with
       | (Ok a, w') => k a w'
       | (Raise e, w') => (Raise e, w')
       end.
Definition lift {A} (r : result A) : M A := λ w, (r, w).

(** [x ← m; k] and [m;; k] below are [bind]. *)
#[global] Instance M_ret : MRet M := @ret.
#[global] Instance M_bind : MBind M := λ A B k m, bind m k.

Definition print (e : event) : M unit :=
  λ w, (Ok tt, World (heap w) (printed w ++ [e]) (sniff_calls w)).

(** Reading the dict behind a reference, for subscription and [.get]. *)
Definition deref_dict (l : loc) : M pydict :=
  λ w, match heap w !! l with
       | Some (ODict d) => (Ok d, w)
       | _ => (Raise TypeError, w)
       end.

(** The items of the list behind a reference, for iteration. *)
Definition deref_list (l : loc) : M (list loc) :=
  λ w, match heap w !! l with
       | Some (OList items) => (Ok items, w)
       | _ => (Raise TypeError, w)
       end.

(** [obj[key] = v] on the dict behind [l], in place. *)
Definition set_item (l : loc) (key : string) (v : pyval) : M unit :=
  λ w, match heap w !! l with
       | Some (ODict d) =>
           (Ok tt, World (<[l := ODict (<[key := v]> d)]> (heap w))
                         (printed w) (sniff_calls w))
       | _ => (Raise TypeError, w)
       end.

(** [for x in xs: body x] *)
Fixpoint for_each {A} (xs : list A) (body : A → M unit) : M unit :=
  match xs with
  | [] => ret tt
  | x :: rest => body x ;; for_each rest body
  end.

(** ** The analyzer process *)

(** The text on the analyzer's standard output, as [json.loads] sees it:
    a JSON document, or something it rejects. *)
Inductive json_text :=
| Json (v : pyval)
| NotJson.

Definition json_loads (s : json_text) : result pyval :=
  match s with
  | Json v => Ok v
  | NotJson => Raise JSONDecodeError
  end.

(** What [subprocess.run(cmd, capture_output=True, text=True, check=True)]
    does: return with the captured output (exit status 0), raise
    [CalledProcessError] (another exit status; [msg] is [str(e)]), or
    raise something else (for instance [OSError] when the binary cannot
    be started). *)
Inductive run_outcome :=
| Completed (stdout : json_text)
| CalledProcessError (msg : string)
| RunRaises (e : exn).

(** All arguments of the command line must be strings. *)
Fixpoint argv (cmd : list pyval) : result (list string) :=
  match cmd with
  | [] => Ok []
  | VStr s :: rest =>
      match argv rest with
      | Ok ss => Ok (s :: ss)
      | Raise e => Raise e
      end
  | _ :: _ => Raise TypeError
  end.

(** ** class SniffTodoWorkflow *)

Section SniffTodoWorkflow.

(** [str(self.sniff_binary)], i.e. [project_root/target/debug/sniff]. *)
Variable sniff_binary : string.

(** The environment: what running the command line does, for the n-th
    call (counted from 0) of the analyzer. *)
Variable subprocess_run : nat → list string → run_outcome.

Definition run_sniff_analysis (files : pyval) : M pyval :=
  λ w,
    let n := sniff_calls w in
    let w := World (heap w) (printed w) (S n) in
    (* cmd = [...] + files *)
    match files with
    | VList fs =>
        let cmd := [VStr sniff_binary; VStr "analyze-files";
                    VStr "--format"; VStr "json"; VStr "--detailed"] ++ fs in
        (* try: *)
        match argv cmd with
        | Raise e => (Raise e, w)
        | Ok args =>
            match subprocess_run n args with
            | Completed stdout => (json_loads stdout, w)
            | CalledProcessError e =>
                (* except subprocess.CalledProcessError as e: *)
                (print (MsgSniffFailed e);;
                 ret (VDict {[ "error" := VStr e ]})) w
            | RunRaises e => (Raise e, w)
            end
        end
    | _ => (Raise TypeError, w)
    end.

Definition verify_quality_gate (analysis_result : pyval) (todo : pydict)
  : M bool :=
  errored ← lift (py_contains "error" analysis_result);
  if errored : bool then ret false else
  (* Extract quality metrics *)
  total_issues ← lift (py_get analysis_result "total_detections" (VInt 0));
  critical_issues ← lift (py_get analysis_result "critical_issues" (VInt 0));
  avg_quality ← lift (py_get analysis_result "average_quality_score" (VInt 0));
  (* Check against thresholds *)
  let min_quality := default (VInt 80) (todo !! "min_quality_score") in
  let max_critical := default (VInt 0) (todo !! "max_critical_issues") in
  too_many ← lift (py_gt critical_issues max_critical);
  if too_many : bool then
    print (MsgCriticalFound critical_issues max_critical);;
    ret false
  else
  too_low ← lift (py_lt avg_quality min_quality);
  if too_low : bool then
    lift (fmt_1f avg_quality);;
    print (MsgQualityBelow avg_quality min_quality);;
    ret false
  else
    lift (fmt_1f avg_quality);;
    print (MsgGatePassed avg_quality total_issues);;
    ret true.

Definition display_sniff_issues (analysis_result : pyval) : M unit :=
  print MsgResultsHeader;;
  file_results ← lift (py_get analysis_result "file_results" (VList []));
  file_results ← lift (py_iter file_results);
  for_each file_results (λ file_result,
    file_path ← lift (py_get file_result "file_path" (VStr "unknown"));
    detections ← lift (py_get file_result "detections" (VList []));
    quality ← lift (py_get file_result "quality_score" (VInt 0));
    if py_truthy detections then
      lift (fmt_1f quality);;
      print (MsgFileHeader file_path quality);;
      (* Show first 5 issues *)
      shown ← lift (py_slice_to 5 detections);
      shown ← lift (py_iter shown);
      for_each shown (λ detection,
        severity ← lift (py_get detection "severity" (VStr "unknown"));
        rule ← lift (py_get detection "rule_name" (VStr "unknown"));
        line ← lift (py_get detection "line_number" (VStr "?"));
        snippet ← lift (py_get detection "code_snippet" (VStr ""));
        snippet ← lift (as_str snippet);
        severity ← lift (as_str severity);
        print (MsgIssue severity rule line snippet));;
      n ← lift (py_len detections);
      if 5 <? n then print (MsgMoreIssues (n - 5)) else ret tt
    else ret tt).

(** The loop that finds the todo: the first item whose ["id"] equals
    [todo_id]. Subscripting raises [KeyError] on a dict without the key
    and [TypeError] on an item that is not a dict. *)
Fixpoint find_todo (todo_id : string) (items : list loc) : M (option loc) :=
  match items with
  | [] => ret None
  | t :: rest =>
      d ← deref_dict t;
      match d !! "id" with
      | None => raise KeyError
      | Some v =>
          if py_eq v (VStr todo_id) then ret (Some t)
          else find_todo todo_id rest
      end
  end.

Definition complete_todo_with_verification (todo_id : string) (todos : loc)
  : M loc :=
  (* Find the TODO *)
  items ← deref_list todos;
  todo ← find_todo todo_id items;
  match todo with
  | None => print (MsgNotFound todo_id);; ret todos
  | Some todo =>
      d ← deref_dict todo;
      if negb (py_truthy (VDict d)) then
        print (MsgNotFound todo_id);; ret todos
      else
      (* Check if files need verification *)
      let files := default (VList []) (d !! "files") in
      if negb (py_truthy files) then
        (* No files to verify, mark complete *)
        set_item todo "status" (VStr "completed");;
        print (MsgCompletedNoFiles todo_id);;
        ret todos
      else
      (* Run sniff analysis *)
      n ← lift (py_len files);
      print (MsgRunning n);;
      analysis ← run_sniff_analysis files;
      (* Check quality gate *)
      d ← deref_dict todo;
      passed ← verify_quality_gate analysis d;
      (if passed : bool then
         (* Passed verification *)
         set_item todo "status" (VStr "completed");;
         set_item todo "sniff_verified" (VBool true);;
         print (MsgCompletedVerified todo_id)
       else
         (* Failed verification *)
         display_sniff_issues analysis;;
         set_item todo "status" (VStr "needs-revision");;
         print (MsgNeedsRevision todo_id));;
      ret todos
  end.

End SniffTodoWorkflow.

(** ** The gate's verdict

    [verify_quality_gate] returns a bool; which check failed shows in what
    it prints: nothing for an errored report, the critical-issues message,
    or the quality message. [evaluate] runs the gate on its own and reads
    the verdict off the return value and the message. *)

Inductive reason :=
| Error
| CriticalIssuesExceeded
| QualityBelowThreshold
| Passed.

Record GateResult := { passed : bool; why : reason }.

Definition reason_of (ok : bool) (msgs : list event) : reason :=
  if ok then Passed
  else match msgs with
       | [MsgCriticalFound _ _] => CriticalIssuesExceeded
       | [MsgQualityBelow _ _] => QualityBelowThreshold
       | _ => Error
       end.

Definition evaluate (analysis_result : pyval) (todo : pydict)
  : result GateResult :=
  match verify_quality_gate analysis_result todo (World ∅ [] 0) with
  | (Ok ok, w) => Ok {| passed := ok; why := reason_of ok (printed w) |}
  | (Raise e, _) => Raise e
  end.

(** The world after printing [msgs]. *)
Definition says (w : world) (msgs : list event) : world :=
  World (heap w) (printed w ++ msgs) (sniff_calls w).

(** The metrics and thresholds as the gate reads them. *)
Definition critical_issues_of (report : pydict) : pyval :=
  default (VInt 0) (report !! "critical_issues").
Definition avg_quality_of (report : pydict) : pyval :=
  default (VInt 0) (report !! "average_quality_score").
Definition total_issues_of (report : pydict) : pyval :=
  default (VInt 0) (report !! "total_detections").
Definition min_quality_of (todo : pydict) : pyval :=
  default (VInt 80) (todo !! "min_quality_score").
Definition max_critical_of (todo : pydict) : pyval :=
  default (VInt 0) (todo !! "max_critical_issues").

Definition is_number (v : pyval) : Prop := is_Some (as_num v).

(** ** Tasks in the store *)

(** [todo.get("files", [])] *)
Definition files_of (todo : pydict) : pyval :=
  default (VList []) (todo !! "files").

(** [todo.get("sniff_verified")] taken as a condition, as the script does
    when it shows the final status. *)
Definition sniff_verified_of (todo : pydict) : bool :=
  match todo !! "sniff_verified" with
  | Some v => py_truthy v
  | None => false
  end.

(** The data model's invariant, as far as a todo's own state shows it:
    a verified todo is completed and has files. *)
Definition task_invariant (todo : pydict) : Prop :=
  sniff_verified_of todo = true →
  todo !! "status" = Some (VStr "completed") ∧
  py_truthy (files_of todo) = true.

(** [t] refers to a todo whose id is not [todo_id]. *)
Definition has_other_id (h : gmap loc object) (todo_id : string) (t : loc)
  : Prop :=
  ∃ d v, h !! t = Some (ODict d) ∧ d !! "id" = Some v ∧
         py_eq v (VStr todo_id) = false.

(** [t] refers to the todo [d], whose id is [todo_id]. *)
Definition has_id (h : gmap loc object) (todo_id : string) (t : loc)
    (d : pydict) : Prop :=
  h !! t = Some (ODict d) ∧
  ∃ v, d !! "id" = Some v ∧ py_eq v (VStr todo_id) = true.

(** [t] is the first item of [items] whose id is [todo_id]. *)
Definition first_with_id (h : gmap loc object) (todo_id : string)
    (items : list loc) (t : loc) (d : pydict) : Prop :=
  ∃ before after, items = before ++ t :: after ∧
    Forall (has_other_id h todo_id) before ∧ has_id h todo_id t d.

(** [d'] differs from [d] at most at ["status"] and ["sniff_verified"]. *)
Definition only_status_and_flag (d d' : pydict) : Prop :=
  ∀ k, k ≠ "status" → k ≠ "sniff_verified" → d' !! k = d !! k.

(** Every object of [h'] is the object of [h] at the same place, except
    that todos with id [todo_id] may differ at the two entries. *)
Definition frame (todo_id : string) (h h' : gmap loc object) : Prop :=
  ∀ l, h' !! l = h !! l ∨
       ∃ d d', has_id h todo_id l d ∧ h' !! l = Some (ODict d') ∧
               only_status_and_flag d d'.

(** A computation that leaves the store and the call count alone. *)
Definition read_only {A} (m : M A) : Prop :=
  ∀ w, heap (m w).2 = heap w ∧ sniff_calls (m w).2 = sniff_calls w.

(** ** Example data

    The first todo of the script's example, once it is in progress, alone
    in the list; and an analyzer that prints a given report. *)

Definition todos_ref : loc := 1%positive.
Definition todo_ref : loc := 2%positive.

Definition auth_todo : pydict :=
  list_to_map
    [("id", VStr "implement-auth");
     ("content", VStr "Implement user authentication system");
     ("status", VStr "in-progress");
     ("priority", VStr "high");
     ("files", VList [VStr "src/auth.rs"; VStr "src/middleware/auth.rs"]);
     ("min_quality_score", VInt 85);
     ("max_critical_issues", VInt 0)].

(** The same todo after an earlier, successful verification. *)
Definition verified_auth_todo : pydict :=
  <["sniff_verified" := VBool true]> (<["status" := VStr "completed"]> auth_todo).

Definition store_of (todo : pydict) : world :=
  World (<[todos_ref := OList [todo_ref]]> {[ todo_ref := ODict todo ]}) [] 0.

Definition report_of (critical_issues avg_quality : Z) : pyval :=
  VDict (list_to_map
    [("total_detections", VInt 3);
     ("critical_issues", VInt critical_issues);
     ("average_quality_score", VInt avg_quality);
     ("file_results", VList [])]).

Definition analyzer_prints (v : pyval) : nat → list string → run_outcome :=
  λ _ _, Completed (Json v).

(** ** Reports that can be displayed *)

Definition is_str (v : pyval) : bool :=
  match v with VStr _ => true | _ => false end.

(** A detection the display can print: a dict whose code_snippet and
    severity, where present, are strings. *)
Definition detection_ok (detection : pyval) : bool :=
  match detection with
  | VDict d =>
      is_str (default (VStr "") (d !! "code_snippet")) &&
      is_str (default (VStr "unknown") (d !! "severity"))
  | _ => false
  end.

(** A file result the display can print: a dict without detections, or
    with a non-empty list of detections of which the first five can be
    printed, and a quality_score that [:.1f] formats. *)
Definition file_result_ok (file_result : pyval) : bool :=
  match file_result with
  | VDict d =>
      let detections := default (VList []) (d !! "detections") in
      negb (py_truthy detections) ||
      (formats_1f (default (VInt 0) (d !! "quality_score")) &&
       match detections with
       | VList l => forallb detection_ok (take 5 l)
       | _ => false
       end)
  | _ => false
  end.

(** A report the display can print: a dict whose file_results, where
    present, are a list of printable file results (or an empty string or
    dict, over which the loop does not run). *)
Definition displayable (analysis_result : pyval) : bool :=
  match analysis_result with
  | VDict d =>
      match default (VList []) (d !! "file_results") with
      | VList l => forallb file_result_ok l
      | VStr s => String.eqb s ""
      | VDict m => Nat.eqb (size m) 0
      | _ => false
      end
  | _ => false
  end.

(** Lines of the display: one per issue shown, one per file listed. *)
Definition is_issue (e : event) : bool :=
  match e with MsgIssue _ _ _ _ => true | _ => false end.

Definition is_file_header (e : event) : bool :=
  match e with MsgFileHeader _ _ => true | _ => false end.

Definition issue_count (msgs : list event) : nat :=
  length (List.filter is_issue msgs).

Definition header_count (msgs : list event) : nat :=
  length (List.filter is_file_header msgs).

(** ** The script around the class

    [example_enhanced_workflow] and the [__main__] block print messages
    of their own between those of the workflow, and create the todos.
    They run in the same kind of monad over a world whose output holds
    both kinds of message. *)

Inductive script_event :=
| FromWorkflow (e : event)
| MsgStarting (content : pyval)
| MsgFinalHeader
| MsgFinalLine (emoji : string) (verified : bool) (content status : pyval).

Record script_world := ScriptWorld {
  s_heap : gmap loc object;
  s_printed : list script_event;
  s_calls : nat
}.

Definition Script (A : Type) : Type :=
  script_world → result A * script_world.

#[global] Instance Script_ret : MRet Script := λ A a sw, (Ok a, sw).
#[global] Instance Script_bind : MBind Script := λ A B k m sw,
  match m sw with
  | (Ok a, sw') => k a sw'
  | (Raise e, sw') => (Raise e, sw')
  end.

(** A step of the workflow inside the script: it runs on the script's
    store and call count, and what it prints is appended to the script's
    output. *)
Definition call {A} (m : M A) : Script A := λ sw,
  let '(r, w') := m (World (s_heap sw) [] (s_calls sw)) in
  (r, ScriptWorld (heap w') (s_printed sw ++ (FromWorkflow <$> printed w'))
                  (sniff_calls w')).

Definition script_print (e : script_event) : Script unit := λ sw,
  (Ok tt, ScriptWorld (s_heap sw) (s_printed sw ++ [e]) (s_calls sw)).

(** A dict or list display creates a new object. *)
Definition alloc (o : object) : Script loc := λ sw,
  let l := fresh (dom (s_heap sw)) in
  (Ok l, ScriptWorld (<[l := o]> (s_heap sw)) (s_printed sw) (s_calls sw)).

(** [d[key]] *)
Definition get_item (d : pydict) (key : string) : result pyval :=
  match d !! key with
  | Some v => Ok v
  | None => Raise KeyError
  end.

(** [complete_todo_with_verification] is declared to take a [str] and is
    modelled on strings; the ids handed to it by the script are the
    string literals of its todos. *)
Definition str_argument (v : pyval) : result string :=
  match v with
  | VStr s => Ok s
  | _ => Raise TypeError
  end.

(** [SniffTodoWorkflow.__init__]: [project_root / "target" / "debug" /
    "sniff"], for a root written without a trailing separator. *)
Definition sniff_binary_of (project_root : string) : string :=
  (project_root ++ "/target/debug/sniff")%string.

Definition example_todo_1 : pydict :=
  list_to_map
    [("id", VStr "implement-auth");
     ("content", VStr "Implement user authentication system");
     ("status", VStr "todo");
     ("priority", VStr "high");
     ("files", VList [VStr "src/auth.rs"; VStr "src/middleware/auth.rs"]);
     ("min_quality_score", VInt 85);
     ("max_critical_issues", VInt 0)].

Definition example_todo_2 : pydict :=
  list_to_map
    [("id", VStr "add-validation");
     ("content", VStr "Add input validation");
     ("status", VStr "todo");
     ("priority", VStr "medium");
     ("files", VList [VStr "src/validation.rs"]);
     ("min_quality_score", VInt 80);
     ("max_critical_issues", VInt 1)].

Section Script.

Variable subprocess_run : nat → list string → run_outcome.

(** The loop of [example_enhanced_workflow] over the items of the list it
    started on; [todos] is the variable the loop rebinds. *)
Fixpoint process_todos (workflow : string) (items : list loc) (todos : loc)
  : Script loc :=
  match items with
  | [] => mret todos
  | todo :: rest =>
      d ← call (deref_dict todo);
      status ← call (lift (get_item d "status"));
      if py_eq status (VStr "todo") then
        content ← call (lift (get_item d "content"));
        script_print (MsgStarting content);;
        call (set_item todo "status" (VStr "in-progress"));;
        (* Verify with sniff *)
        d ← call (deref_dict todo);
        todo_id ← call (lift (get_item d "id"));
        todo_id ← call (lift (str_argument todo_id));
        todos ← call (complete_todo_with_verification workflow
                        subprocess_run todo_id todos);
        process_todos workflow rest todos
      else process_todos workflow rest todos
  end.

Definition example_enhanced_workflow : Script loc :=
  (* Initial TODOs with file tracking *)
  t1 ← alloc (ODict example_todo_1);
  t2 ← alloc (ODict example_todo_2);
  todos ← alloc (OList [t1; t2]);
  let workflow := sniff_binary_of "/Users/chetanconikee/tulving/sniff" in
  (* Process each TODO *)
  items ← call (deref_list todos);
  process_todos workflow items todos.

(** [status_emoji.get(status, default)]: a list or a dict cannot be a
    key. *)
Definition status_emoji (status : pyval) : result string :=
  match status with
  | VList _ | VDict _ => Raise TypeError
  | VStr s =>
      Ok (if String.eqb s "completed" then "✅"
          else if String.eqb s "needs-revision" then "🔄"
          else if String.eqb s "in-progress" then "⏳"
          else if String.eqb s "todo" then "📝"
          else "❓")
  | _ => Ok "❓"
  end.

Fixpoint script_for_each {A} (xs : list A) (body : A → Script unit)
  : Script unit :=
  match xs with
  | [] => mret tt
  | x :: rest => body x ;; script_for_each rest body
  end.

(** The [__main__] block. *)
Definition main : Script unit :=
  (* Run example *)
  result_todos ← example_enhanced_workflow;
  (* Display final status *)
  script_print MsgFinalHeader;;
  items ← call (deref_list result_todos);
  script_for_each items (λ todo,
    d ← call (deref_dict todo);
    status ← call (lift (get_item d "status"));
    emoji ← call (lift (status_emoji status));
    let verified := sniff_verified_of d in
    content ← call (lift (get_item d "content"));
    status ← call (lift (get_item d "status"));
    script_print (MsgFinalLine emoji verified content status)).

End Script.

(** How the script leaves a todo it has processed, and the line it shows
    for it at the end. *)
Definition settled (before after : pydict) : Prop :=
  after = <["sniff_verified" := VBool true]>
            (<["status" := VStr "completed"]> before) ∨
  after = <["status" := VStr "needs-revision"]> before.

Definition final_line (content : pyval) (line : script_event) : Prop :=
  line = MsgFinalLine "✅" true content (VStr "completed") ∨
  line = MsgFinalLine "🔄" false content (VStr "needs-revision").

(** ** Helper lemmas *)

Ltac run_M :=
  unfold mbind, M_bind, mret, M_ret, bind, lift, ret, raise, print, says;
  simpl.

Lemma says_nil w : says w [] = w.
Proof. destruct w; unfold says; simpl. by rewrite app_nil_r. Qed.

Lemma x_le_not_gt (a b : xnum) : x_le a b = true → x_lt b a = false.
Proof.
  unfold x_le.
  destruct a as [| |p|], b as [| |q|]; simpl; try done.
  unfold Qlt_bool. intros H.
  apply negb_false_iff, Qle_bool_iff.
  apply orb_true_iff in H as [H|H].
  - apply negb_true_iff in H.
    destruct (Qlt_le_dec p q) as [Hlt|Hle].
    + by apply Qlt_le_weak.
    + apply Qle_bool_iff in Hle. congruence.
  - apply Qeq_bool_iff in H. rewrite H. apply Qle_refl.
Qed.

Lemma py_order_numbers strict (a b : pyval) x y :
  as_num a = Some x → as_num b = Some y →
  py_order strict a b = Ok (if strict then x_lt x y else x_le x y).
Proof.
  intros Ha Hb.
  destruct a; try discriminate; destruct b; try discriminate;
    simpl in *; rewrite ?Ha, ?Hb; try done;
    repeat case_match; simplify_eq; done.
Qed.

Lemma py_le_not_gt (a b : pyval) :
  is_number a → is_number b → py_le a b = Ok true → py_gt a b = Ok false.
Proof.
  intros [x Hx] [y Hy]. unfold py_le, py_gt.
  rewrite (py_order_numbers false a b x y Hx Hy).
  rewrite (py_order_numbers true b a y x Hy Hx).
  intros [= H]. f_equal. by apply x_le_not_gt.
Qed.

Lemma py_ge_not_lt (a b : pyval) :
  is_number a → is_number b → py_ge a b = Ok true → py_lt a b = Ok false.
Proof.
  intros [x Hx] [y Hy]. unfold py_ge, py_lt.
  rewrite (py_order_numbers false b a y x Hy Hx).
  rewrite (py_order_numbers true a b x y Hx Hy).
  intros [= H]. f_equal. by apply x_le_not_gt.
Qed.

Lemma fmt_1f_formats (v : pyval) : formats_1f v = true → fmt_1f v = Ok tt.
Proof.
  destruct v; try done. unfold formats_1f, fmt_1f. by intros ->.
Qed.

Lemma formats_1f_number (v : pyval) : formats_1f v = true → is_number v.
Proof. destruct v as [| | |[|[]|]| | |]; try done; by eexists. Qed.

(** The gate on a report that is a dict without the key ["error"]. *)
Lemma verify_quality_gate_dict (report todo : pydict) (w : world) :
  report !! "error" = None →
  verify_quality_gate (VDict report) todo w =
    match py_gt (critical_issues_of report) (max_critical_of todo) with
    | Raise e => (Raise e, w)
    | Ok true =>
        (Ok false, says w [MsgCriticalFound (critical_issues_of report)
                                            (max_critical_of todo)])
    | Ok false =>
        match py_lt (avg_quality_of report) (min_quality_of todo),
              fmt_1f (avg_quality_of report) with
        | Raise e, _ => (Raise e, w)
        | Ok _, Raise e => (Raise e, w)
        | Ok true, Ok _ =>
            (Ok false, says w [MsgQualityBelow (avg_quality_of report)
                                               (min_quality_of todo)])
        | Ok false, Ok _ =>
            (Ok true, says w [MsgGatePassed (avg_quality_of report)
                                            (total_issues_of report)])
        end
    end.
Proof.
  intros Herr. unfold verify_quality_gate. run_M. rewrite Herr.
  rewrite bool_decide_eq_false_2 by (by intros [? ?]).
  fold (critical_issues_of report) (max_critical_of todo)
       (avg_quality_of report) (min_quality_of todo) (total_issues_of report).
  destruct (py_gt _ _) as [[]|]; try done.
  destruct (py_lt _ _) as [[]|]; try done;
    destruct (fmt_1f _); done.
Qed.

(** ** The gate *)

(** C1. A report carrying the error indicator (the key ["error"]) fails the
    gate with reason Error, whatever its metrics and whatever the todo's
    thresholds: the gate returns [False] and prints nothing. *)
Theorem errored_report_fails (analysis_result : pyval) (todo : pydict)
    (w : world) :
  py_contains "error" analysis_result = Ok true →
  verify_quality_gate analysis_result todo w = (Ok false, w) ∧
  evaluate analysis_result todo = Ok {| passed := false; why := Error |}.
Proof.
  intros Herr.
  assert (∀ w', verify_quality_gate analysis_result todo w' = (Ok false, w'))
    as Hgate.
  { intros w'. unfold verify_quality_gate. run_M. by rewrite Herr. }
  split; [apply Hgate|].
  unfold evaluate. by rewrite Hgate.
Qed.

Lemma errored_report_fails_witness :
  let report := VDict (<["error" := VStr "exit status 2"]>
                        (<["critical_issues" := VInt 0]>
                          (<["average_quality_score" := VInt 100]> ∅))) in
  py_contains "error" report = Ok true ∧
  evaluate report ∅ = Ok {| passed := false; why := Error |}.
Proof.
  split; [reflexivity|].
  apply (errored_report_fails _ ∅ (World ∅ [] 0)). reflexivity.
Defined.

(** C2. A report without the error indicator whose critical_issues exceed
    the todo's max_critical_issues fails with reason
    CriticalIssuesExceeded, whatever its average_quality_score (100 or
    below the minimum alike): the critical-issues check comes first, so
    the quality message is never the one printed. *)
Theorem critical_issues_exceeded (report todo : pydict) (w : world) :
  report !! "error" = None →
  py_gt (critical_issues_of report) (max_critical_of todo) = Ok true →
  verify_quality_gate (VDict report) todo w =
    (Ok false, says w [MsgCriticalFound (critical_issues_of report)
                                        (max_critical_of todo)]) ∧
  evaluate (VDict report) todo =
    Ok {| passed := false; why := CriticalIssuesExceeded |}.
Proof.
  intros Herr Hgt. split.
  - rewrite verify_quality_gate_dict by done. by rewrite Hgt.
  - unfold evaluate. rewrite verify_quality_gate_dict by done.
    by rewrite Hgt.
Qed.

Lemma critical_issues_exceeded_witness :
  let report : pydict := <["critical_issues" := VInt 1]>
                           (<["average_quality_score" := VInt 100]> ∅) in
  let todo : pydict := <["max_critical_issues" := VInt 0]>
                         (<["min_quality_score" := VInt 85]> ∅) in
  report !! "error" = None ∧
  py_gt (critical_issues_of report) (max_critical_of todo) = Ok true ∧
  evaluate (VDict report) todo =
    Ok {| passed := false; why := CriticalIssuesExceeded |}.
Proof.
  split; [reflexivity|]. split; [reflexivity|].
  apply (critical_issues_exceeded _ _ (World ∅ [] 0)); reflexivity.
Defined.

(** C3. A report without the error indicator, with numeric metrics and
    thresholds, an average_quality_score within the range of a float
    (as every score between 0 and 100 is) and critical_issues <=
    max_critical_issues, fails with reason QualityBelowThreshold when
    average_quality_score < min_quality_score and passes when
    average_quality_score >= min_quality_score; equality on either
    threshold passes. *)
Theorem quality_threshold_decides (report todo : pydict) (w : world) :
  report !! "error" = None →
  is_number (critical_issues_of report) → is_number (max_critical_of todo) →
  formats_1f (avg_quality_of report) = true →
  is_number (min_quality_of todo) →
  py_le (critical_issues_of report) (max_critical_of todo) = Ok true →
  (py_lt (avg_quality_of report) (min_quality_of todo) = Ok true →
     verify_quality_gate (VDict report) todo w =
       (Ok false, says w [MsgQualityBelow (avg_quality_of report)
                                          (min_quality_of todo)]) ∧
     evaluate (VDict report) todo =
       Ok {| passed := false; why := QualityBelowThreshold |}) ∧
  (py_ge (avg_quality_of report) (min_quality_of todo) = Ok true →
     verify_quality_gate (VDict report) todo w =
       (Ok true, says w [MsgGatePassed (avg_quality_of report)
                                       (total_issues_of report)]) ∧
     evaluate (VDict report) todo =
       Ok {| passed := true; why := Passed |}).
Proof.
  intros Herr Nc Nm Fa Nq Hle.
  pose proof (formats_1f_number _ Fa) as Na.
  pose proof (py_le_not_gt _ _ Nc Nm Hle) as Hgt.
  pose proof (fmt_1f_formats _ Fa) as Hfmt.
  split.
  - intros Hlt. unfold evaluate.
    rewrite !verify_quality_gate_dict by done.
    by rewrite Hgt, Hlt, Hfmt.
  - intros Hge. pose proof (py_ge_not_lt _ _ Na Nq Hge) as Hlt.
    unfold evaluate. rewrite !verify_quality_gate_dict by done.
    by rewrite Hgt, Hlt, Hfmt.
Qed.

Lemma quality_threshold_decides_witness :
  let report : pydict := <["critical_issues" := VInt 1]>
                           (<["average_quality_score" := VInt 80]> ∅) in
  let todo : pydict := <["max_critical_issues" := VInt 1]>
                         (<["min_quality_score" := VInt 80]> ∅) in
  formats_1f (avg_quality_of report) = true ∧
  py_le (critical_issues_of report) (max_critical_of todo) = Ok true ∧
  py_ge (avg_quality_of report) (min_quality_of todo) = Ok true ∧
  evaluate (VDict report) todo = Ok {| passed := true; why := Passed |}.
Proof.
  split; [reflexivity|]. split; [reflexivity|]. split; [reflexivity|].
  apply (quality_threshold_decides _ _ (World ∅ [] 0));
    try reflexivity; by eexists.
Defined.

(** Outside that range the gate neither passes nor fails: a score of
    [10^400], which [json.loads] reads as an int, makes it raise. *)
Example huge_quality_score_raises :
  evaluate (VDict (<["average_quality_score" := VInt (10 ^ 400)]> ∅)) ∅ =
    Raise OverflowError.
Proof. vm_compute. reflexivity. Qed.

(** C9. The thresholds the gate compares against are read off the todo:
    min_quality_score is the todo's entry when there is one and 80 when
    there is none, max_critical_issues is the todo's entry when there is
    one and 0 when there is none. For a report without the error
    indicator, the gate's whole behaviour (which comparison decides,
    what is returned, which values the message shows) is the one
    written out below with these two values. *)
Theorem threshold_defaults (report todo : pydict) (w : world)
    (min_quality max_critical : pyval) :
  report !! "error" = None →
  (todo !! "min_quality_score" = Some min_quality ∨
   todo !! "min_quality_score" = None ∧ min_quality = VInt 80) →
  (todo !! "max_critical_issues" = Some max_critical ∨
   todo !! "max_critical_issues" = None ∧ max_critical = VInt 0) →
  verify_quality_gate (VDict report) todo w =
    match py_gt (critical_issues_of report) max_critical with
    | Raise e => (Raise e, w)
    | Ok true =>
        (Ok false,
         says w [MsgCriticalFound (critical_issues_of report) max_critical])
    | Ok false =>
        match py_lt (avg_quality_of report) min_quality,
              fmt_1f (avg_quality_of report) with
        | Raise e, _ => (Raise e, w)
        | Ok _, Raise e => (Raise e, w)
        | Ok true, Ok _ =>
            (Ok false,
             says w [MsgQualityBelow (avg_quality_of report) min_quality])
        | Ok false, Ok _ =>
            (Ok true,
             says w [MsgGatePassed (avg_quality_of report)
                                   (total_issues_of report)])
        end
    end.
Proof.
  intros Herr Hq Hc.
  rewrite verify_quality_gate_dict by done.
  assert (min_quality_of todo = min_quality) as ->
    by (unfold min_quality_of; by destruct Hq as [-> | [-> ->]]).
  assert (max_critical_of todo = max_critical) as ->
    by (unfold max_critical_of; by destruct Hc as [-> | [-> ->]]).
  done.
Qed.

Lemma threshold_defaults_witness :
  let todo : pydict := <["id" := VStr "implement-auth"]> ∅ in
  let w := World ∅ [] 0 in
  (verify_quality_gate (report_of 0 79) todo w =
     (Ok false, says w [MsgQualityBelow (VInt 79) (VInt 80)])) ∧
  (verify_quality_gate (report_of 1 90) todo w =
     (Ok false, says w [MsgCriticalFound (VInt 1) (VInt 0)])) ∧
  (verify_quality_gate (report_of 1 84)
     (<["max_critical_issues" := VInt 1]>
        (<["min_quality_score" := VInt 85]> todo)) w =
     (Ok false, says w [MsgQualityBelow (VInt 84) (VInt 85)])).
Proof.
  intros todo w. split; [|split].
  - refine (eq_trans
      (threshold_defaults
         (list_to_map
            [("total_detections", VInt 3); ("critical_issues", VInt 0);
             ("average_quality_score", VInt 79); ("file_results", VList [])])
         todo w (VInt 80) (VInt 0) _ _ _) _);
      [reflexivity|right; split; reflexivity|right; split; reflexivity
      |reflexivity].
  - refine (eq_trans
      (threshold_defaults
         (list_to_map
            [("total_detections", VInt 3); ("critical_issues", VInt 1);
             ("average_quality_score", VInt 90); ("file_results", VList [])])
         todo w (VInt 80) (VInt 0) _ _ _) _);
      [reflexivity|right; split; reflexivity|right; split; reflexivity
      |reflexivity].
  - refine (eq_trans
      (threshold_defaults
         (list_to_map
            [("total_detections", VInt 3); ("critical_issues", VInt 1);
             ("average_quality_score", VInt 84); ("file_results", VList [])])
         (<["max_critical_issues" := VInt 1]>
            (<["min_quality_score" := VInt 85]> todo)) w
         (VInt 85) (VInt 1) _ _ _) _);
      [reflexivity|left; reflexivity|left; reflexivity|reflexivity].
Defined.

(** The defaults at work: without thresholds on the todo, 79 is below the
    quality threshold, 80 is not, and one critical issue is too many. *)
Example default_min_quality_rejects_79 :
  evaluate (report_of 0 79) ∅ =
    Ok {| passed := false; why := QualityBelowThreshold |}.
Proof. reflexivity. Qed.

Example default_min_quality_accepts_80 :
  evaluate (report_of 0 80) ∅ = Ok {| passed := true; why := Passed |}.
Proof. reflexivity. Qed.

Example default_max_critical_rejects_1 :
  evaluate (report_of 1 100) ∅ =
    Ok {| passed := false; why := CriticalIssuesExceeded |}.
Proof. reflexivity. Qed.

Example given_thresholds_are_used :
  evaluate (report_of 1 84) (<["max_critical_issues" := VInt 1]> ∅) =
    Ok {| passed := true; why := Passed |} ∧
  evaluate (report_of 0 84) auth_todo =
    Ok {| passed := false; why := QualityBelowThreshold |}.
Proof. split; reflexivity. Qed.

(** ** Which methods touch the store *)

Lemma read_only_ret {A} (a : A) : read_only (ret a).
Proof. done. Qed.

Lemma read_only_lift {A} (r : result A) : read_only (lift r).
Proof. done. Qed.

Lemma read_only_print e : read_only (print e).
Proof. done. Qed.

Lemma read_only_bind {A B} (m : M A) (k : A → M B) :
  read_only m → (∀ a, read_only (k a)) → read_only (bind m k).
Proof.
  intros Hm Hk w. unfold bind. destruct (Hm w) as [Hh Hc].
  destruct (m w) as [[a|e] w1]; simpl in *; [|done].
  destruct (Hk a w1) as [Hh' Hc']. by rewrite Hh', Hc'.
Qed.

Lemma read_only_for_each {A} (xs : list A) (body : A → M unit) :
  (∀ x, read_only (body x)) → read_only (for_each xs body).
Proof.
  intros Hbody. induction xs as [|x xs IH]; simpl; [done|].
  apply read_only_bind; auto.
Qed.

Ltac read_only_tac :=
  repeat first
    [ apply read_only_ret | apply read_only_lift | apply read_only_print
    | apply read_only_for_each; intros ?
    | apply read_only_bind; [|intros ?]
    | match goal with |- read_only (if ?b then _ else _) => destruct b end
    | match goal with |- read_only (match ?x with _ => _ end) =>
        destruct x end ].

Lemma verify_quality_gate_read_only a todo :
  read_only (verify_quality_gate a todo).
Proof. unfold verify_quality_gate, mbind, M_bind. read_only_tac. Qed.

Lemma display_sniff_issues_read_only a : read_only (display_sniff_issues a).
Proof. unfold display_sniff_issues, mbind, M_bind. read_only_tac. Qed.

Lemma run_sniff_analysis_heap bin run files w :
  heap (run_sniff_analysis bin run files w).2 = heap w ∧
  sniff_calls (run_sniff_analysis bin run files w).2 = S (sniff_calls w).
Proof.
  unfold run_sniff_analysis.
  destruct files; try done. destruct (argv _); [|done].
  destruct (run _ _); done.
Qed.

Lemma mbind_unfold {A B} (m : M A) (k : A → M B) (w : world) :
  (m ≫= k) w = match m w with
               | (Ok a, w') => k a w'
               | (Raise e, w') => (Raise e, w')
               end.
Proof. done. Qed.

(** ** Finding the todo *)

Lemma find_todo_world todo_id items w : (find_todo todo_id items w).2 = w.
Proof.
  induction items as [|t items IH]; simpl; [done|].
  unfold mbind, M_bind, bind, deref_dict.
  destruct (heap w !! t) as [[d|]|]; try done.
  destruct (d !! "id") as [v|]; [|done].
  destruct (py_eq v (VStr todo_id)); [done|apply IH].
Qed.

Lemma find_todo_found todo_id items w t w' :
  find_todo todo_id items w = (Ok (Some t), w') →
  ∃ d, first_with_id (heap w) todo_id items t d.
Proof.
  induction items as [|t0 items IH]; simpl; [done|].
  rewrite mbind_unfold. unfold deref_dict.
  destruct (heap w !! t0) as [[d|]|] eqn:Ht0; try done.
  destruct (d !! "id") as [v|] eqn:Hid; [|done].
  destruct (py_eq v (VStr todo_id)) eqn:Heq.
  - intros [= <- <-]. exists d, [], items.
    split; [done|]. split; [constructor|]. split; [done|eauto].
  - intros H. destruct (IH H) as (d' & before & after & -> & Hb & Ht).
    exists d', (t0 :: before), after. split; [done|]. split; [|done].
    constructor; [|done]. by exists d, v.
Qed.

Lemma find_todo_none todo_id items w :
  Forall (has_other_id (heap w) todo_id) items →
  find_todo todo_id items w = (Ok None, w).
Proof.
  induction 1 as [|t items (d & v & Ht & Hid & Hne) _ IH]; simpl; [done|].
  unfold mbind, M_bind, bind, deref_dict. by rewrite Ht, Hid, Hne.
Qed.

Lemma find_todo_first todo_id items w t d :
  first_with_id (heap w) todo_id items t d →
  find_todo todo_id items w = (Ok (Some t), w).
Proof.
  intros (before & after & -> & Hbefore & Ht & v & Hid & Heq).
  induction Hbefore as [|t0 before (d0 & v0 & Ht0 & Hid0 & Hne) _ IH]; simpl;
    unfold mbind, M_bind, bind, deref_dict.
  - by rewrite Ht, Hid, Heq.
  - by rewrite Ht0, Hid0, Hne.
Qed.

Lemma dict_with_key_truthy (d : pydict) k v :
  d !! k = Some v → py_truthy (VDict d) = true.
Proof.
  intros Hk. simpl. apply negb_true_iff, Nat.eqb_neq.
  intros Hsize. apply map_size_empty_iff in Hsize. by subst.
Qed.

(** ** The life cycle, path by path *)

Section Paths.
Variable bin : string.
Variable run : nat → list string → run_outcome.

(** The call once the todo is found: the rest of the method, with the
    store written out. *)
Lemma complete_found todo_id todos items t d w :
  heap w !! todos = Some (OList items) →
  find_todo todo_id items w = (Ok (Some t), w) →
  has_id (heap w) todo_id t d →
  complete_todo_with_verification bin run todo_id todos w =
    if negb (py_truthy (files_of d)) then
      (Ok todos,
       World (<[t := ODict (<["status" := VStr "completed"]> d)]> (heap w))
             (printed w ++ [MsgCompletedNoFiles todo_id]) (sniff_calls w))
    else
      match py_len (files_of d) with
      | Raise e => (Raise e, w)
      | Ok n =>
        match run_sniff_analysis bin run (files_of d)
                (says w [MsgRunning n]) with
        | (Raise e, w1) => (Raise e, w1)
        | (Ok analysis, w1) =>
          match verify_quality_gate analysis d w1 with
          | (Raise e, w2) => (Raise e, w2)
          | (Ok true, w2) =>
              (Ok todos,
               World (<[t := ODict (<["sniff_verified" := VBool true]>
                                     (<["status" := VStr "completed"]> d))]>
                        (heap w))
                     (printed w2 ++ [MsgCompletedVerified todo_id])
                     (sniff_calls w2))
          | (Ok false, w2) =>
            match display_sniff_issues analysis w2 with
            | (Raise e, w3) => (Raise e, w3)
            | (Ok _, w3) =>
                (Ok todos,
                 World (<[t := ODict (<["status" := VStr "needs-revision"]>
                                       d)]> (heap w))
                       (printed w3 ++ [MsgNeedsRevision todo_id])
                       (sniff_calls w3))
            end
          end
        end
      end.
Proof.
  intros Htodos Hfind (Ht & v & Hid & _).
  unfold complete_todo_with_verification.
  rewrite mbind_unfold. unfold deref_list. rewrite Htodos.
  rewrite mbind_unfold, Hfind.
  rewrite mbind_unfold. unfold deref_dict at 1. rewrite Ht.
  rewrite (dict_with_key_truthy d "id" v Hid). cbn [negb].
  fold (files_of d).
  destruct (py_truthy (files_of d)) eqn:Hfiles; cbn [negb].
  2:{ rewrite mbind_unfold. unfold set_item. rewrite Ht.
      by rewrite mbind_unfold. }
  rewrite mbind_unfold. unfold lift at 1.
  destruct (py_len (files_of d)) as [n|e]; [|done].
  rewrite mbind_unfold. unfold print at 1.
  fold (says w [MsgRunning n]).
  rewrite mbind_unfold.
  pose proof (run_sniff_analysis_heap bin run (files_of d)
                (says w [MsgRunning n])) as [Hh1 _].
  destruct (run_sniff_analysis _ _ _ _) as [[analysis|e] w1]; [|done].
  simpl in Hh1.
  rewrite mbind_unfold. unfold deref_dict at 1. rewrite Hh1, Ht.
  rewrite mbind_unfold.
  pose proof (verify_quality_gate_read_only analysis d w1) as [Hh2 _].
  destruct (verify_quality_gate analysis d w1) as [[[]|e] w2]; [| |done].
  - simpl in Hh2.
    rewrite !mbind_unfold. unfold set_item at 1. rewrite Hh2, Hh1, Ht.
    rewrite mbind_unfold. unfold set_item. cbn [heap].
    rewrite lookup_insert_eq.
    unfold print, mret, M_ret, ret. cbn.
    by rewrite insert_insert_eq.
  - simpl in Hh2.
    rewrite !mbind_unfold.
    pose proof (display_sniff_issues_read_only analysis w2) as [Hh3 _].
    destruct (display_sniff_issues analysis w2) as [[[]|e] w3]; [|done].
    simpl in Hh3.
    rewrite !mbind_unfold. unfold set_item.
    by rewrite Hh3, Hh2, Hh1, Ht.
Qed.

Lemma complete_not_found todo_id todos items w :
  heap w !! todos = Some (OList items) →
  find_todo todo_id items w = (Ok None, w) →
  complete_todo_with_verification bin run todo_id todos w =
    (Ok todos, says w [MsgNotFound todo_id]).
Proof.
  intros Htodos Hfind. unfold complete_todo_with_verification.
  rewrite mbind_unfold. unfold deref_list. rewrite Htodos.
  by rewrite mbind_unfold, Hfind.
Qed.

(** Every outcome of a call: either the store is as it was, or the call
    returned [todos] after rewriting the selected todo in one of three
    ways. *)
Lemma complete_outcome todo_id todos w r w' :
  complete_todo_with_verification bin run todo_id todos w = (r, w') →
  (r = Ok todos ∨ ∃ e, r = Raise e) ∧
  (heap w' = heap w ∨
   ∃ items t d d',
     heap w !! todos = Some (OList items) ∧
     first_with_id (heap w) todo_id items t d ∧
     r = Ok todos ∧ heap w' = <[t := ODict d']> (heap w) ∧
     ((py_truthy (files_of d) = false ∧
       d' = <["status" := VStr "completed"]> d) ∨
      (py_truthy (files_of d) = true ∧
       d' = <["sniff_verified" := VBool true]>
              (<["status" := VStr "completed"]> d) ∧
       ∃ analysis w0 w1 w2,
         run_sniff_analysis bin run (files_of d) w0 = (Ok analysis, w1) ∧
         verify_quality_gate analysis d w1 = (Ok true, w2)) ∨
      (py_truthy (files_of d) = true ∧
       d' = <["status" := VStr "needs-revision"]> d))).
Proof.
  destruct (heap w !! todos) as [[|items]|] eqn:Htodos.
  1,3: unfold complete_todo_with_verification;
       rewrite mbind_unfold; unfold deref_list; rewrite Htodos;
       intros [= <- <-]; eauto.
  pose proof (find_todo_world todo_id items w) as Hw.
  destruct (find_todo todo_id items w) as [[[t|]|e] w0] eqn:Hfind;
    simpl in Hw; subst w0.
  - destruct (find_todo_found _ _ _ _ _ Hfind) as [d Hfirst].
    pose proof Hfirst as (_ & _ & _ & _ & Hid).
    rewrite (complete_found _ _ _ _ _ _ Htodos Hfind Hid).
    destruct (py_truthy (files_of d)) eqn:Hfiles; cbn [negb].
    2:{ intros [= <- <-]. split; [eauto|]. right.
        exists items, t, d, (<["status" := VStr "completed"]> d). eauto 10. }
    destruct (py_len (files_of d)) as [n|e]; [|by intros [= <- <-]; eauto].
    pose proof (run_sniff_analysis_heap bin run (files_of d)
                  (says w [MsgRunning n])) as [Hh1 _].
    destruct (run_sniff_analysis _ _ _ _) as [[analysis|e] w1] eqn:Hrun;
      simpl in Hh1; [|by intros [= <- <-]; eauto].
    pose proof (verify_quality_gate_read_only analysis d w1) as [Hh2 _].
    destruct (verify_quality_gate analysis d w1) as [[[]|e] w2] eqn:Hgate;
      simpl in Hh2.
    + intros [= <- <-]. split; [eauto|]. right.
      eexists items, t, d, _. do 4 (split; [done|]).
      right; left. split; [done|]. split; [done|].
      by exists analysis, (says w [MsgRunning n]), w1, w2.
    + pose proof (display_sniff_issues_read_only analysis w2) as [Hh3 _].
      destruct (display_sniff_issues analysis w2) as [[[]|e] w3];
        simpl in Hh3; intros [= <- <-].
      * split; [eauto|]. right.
        eexists items, t, d, _. do 4 (split; [done|]). eauto.
      * split; [eauto|]. left. congruence.
    + intros [= <- <-]. split; [eauto|]. left. congruence.
  - rewrite (complete_not_found _ _ _ _ Htodos Hfind).
    intros [= <- <-]. eauto.
  - unfold complete_todo_with_verification.
    rewrite mbind_unfold. unfold deref_list. rewrite Htodos.
    rewrite mbind_unfold, Hfind. intros [= <- <-]. eauto.
Qed.
End Paths.

(** ** The example store *)

Lemma store_of_dict todo l d :
  heap (store_of todo) !! l = Some (ODict d) → l = todo_ref ∧ d = todo.
Proof.
  unfold store_of, todos_ref, todo_ref. cbn [heap]. intros H.
  destruct (decide (l = 1%positive)) as [->|H1].
  { by rewrite lookup_insert_eq in H. }
  rewrite lookup_insert_ne in H by done.
  destruct (decide (l = 2%positive)) as [->|H2].
  { rewrite lookup_singleton_eq in H. by simplify_eq. }
  by rewrite lookup_singleton_ne in H.
Qed.

Lemma store_of_first todo todo_id v :
  todo !! "id" = Some v → py_eq v (VStr todo_id) = true →
  first_with_id (heap (store_of todo)) todo_id [todo_ref] todo_ref todo.
Proof.
  intros Hid Heq. exists [], []. split; [done|]. split; [constructor|].
  split; [done|eauto].
Qed.

(** ** The analyzer adapter *)

(** A non-zero exit status is captured: the adapter prints the failure and
    returns a report that carries the error indicator and nothing else. *)
Lemma run_sniff_analysis_captures_exit_status bin run fs args msg w :
  argv ([VStr bin; VStr "analyze-files"; VStr "--format"; VStr "json";
         VStr "--detailed"] ++ fs) = Ok args →
  run (sniff_calls w) args = CalledProcessError msg →
  run_sniff_analysis bin run (VList fs) w =
    (Ok (VDict {[ "error" := VStr msg ]}),
     World (heap w) (printed w ++ [MsgSniffFailed msg]) (S (sniff_calls w))).
Proof.
  intros Hargv Hrun. unfold run_sniff_analysis.
  cbn [sniff_calls heap printed]. by rewrite Hargv, Hrun.
Qed.

(** C4. Output of the analyzer that is not JSON is not captured: with
    exit status 0 and such output, [run_sniff_analysis] raises
    [JSONDecodeError] to its caller instead of returning an errored
    report. *)
Theorem malformed_output_raises :
  run_sniff_analysis "target/debug/sniff" (λ _ _, Completed NotJson)
    (VList [VStr "src/auth.rs"]) (World ∅ [] 0) =
  (Raise JSONDecodeError, World ∅ [] 1).
Proof. reflexivity. Qed.

(** The same for an analyzer that cannot be started. *)
Lemma missing_binary_raises :
  run_sniff_analysis "target/debug/sniff" (λ _ _, RunRaises OSError)
    (VList [VStr "src/auth.rs"]) (World ∅ [] 0) =
  (Raise OSError, World ∅ [] 1).
Proof. reflexivity. Qed.

(** ** The life cycle *)

(** C7. When no todo of the list has the requested id, the call reports
    that the todo was not found and returns the list; no todo and no
    other object of the store is changed, and the analyzer is not
    called. *)
Theorem unknown_id_not_found bin run todo_id todos items w :
  heap w !! todos = Some (OList items) →
  Forall (has_other_id (heap w) todo_id) items →
  complete_todo_with_verification bin run todo_id todos w =
    (Ok todos, World (heap w) (printed w ++ [MsgNotFound todo_id])
                     (sniff_calls w)).
Proof.
  intros Htodos Hothers.
  apply complete_not_found with items; [done|]. by apply find_todo_none.
Qed.

Lemma unknown_id_not_found_witness :
  complete_todo_with_verification "target/debug/sniff"
    (analyzer_prints (report_of 0 90)) "add-validation" todos_ref
    (store_of auth_todo) =
  (Ok todos_ref,
   World (heap (store_of auth_todo)) [MsgNotFound "add-validation"] 0).
Proof.
  apply (unknown_id_not_found _ _ "add-validation" todos_ref [todo_ref]
           (store_of auth_todo)).
  - reflexivity.
  - constructor; [|constructor].
    exists auth_todo, (VStr "implement-auth"). repeat split; reflexivity.
Defined.

(** C6. A todo without files (its ["files"] entry is empty or missing) is
    marked completed at once: the analyzer is not called (the call count
    stays as it was), nothing but ["status"] is written, so sniff_verified
    stays as it was, which for a todo satisfying the invariant is
    false or absent. *)
Theorem no_files_completes_without_analysis bin run todo_id todos items t d w :
  heap w !! todos = Some (OList items) →
  first_with_id (heap w) todo_id items t d →
  py_truthy (files_of d) = false →
  complete_todo_with_verification bin run todo_id todos w =
    (Ok todos,
     World (<[t := ODict (<["status" := VStr "completed"]> d)]> (heap w))
           (printed w ++ [MsgCompletedNoFiles todo_id]) (sniff_calls w)) ∧
  (<["status" := VStr "completed"]> d) !! "sniff_verified" =
    d !! "sniff_verified" ∧
  (task_invariant d →
   sniff_verified_of (<["status" := VStr "completed"]> d) = false).
Proof.
  intros Htodos Hfirst Hfiles. split; [|split].
  - pose proof Hfirst as (_ & _ & _ & _ & Hid).
    rewrite (complete_found bin run todo_id todos items t d w); try done.
    + by rewrite Hfiles.
    + by eapply find_todo_first.
  - by rewrite lookup_insert_ne.
  - intros Hinv. unfold sniff_verified_of at 1.
    rewrite lookup_insert_ne by done. fold (sniff_verified_of d).
    destruct (sniff_verified_of d) eqn:Hv; [|done].
    destruct (Hinv Hv) as [_ Hf]. congruence.
Qed.

Lemma no_files_completes_without_analysis_witness :
  let todo := <["files" := VList []]> auth_todo in
  complete_todo_with_verification "target/debug/sniff"
    (analyzer_prints (report_of 0 90)) "implement-auth" todos_ref
    (store_of todo) =
  (Ok todos_ref,
   World (<[todo_ref := ODict (<["status" := VStr "completed"]> todo)]>
            (heap (store_of todo)))
         [MsgCompletedNoFiles "implement-auth"] 0).
Proof.
  intros todo.
  apply (no_files_completes_without_analysis _ _ "implement-auth" todos_ref
           [todo_ref] todo_ref todo (store_of todo)).
  - reflexivity.
  - by apply store_of_first with (VStr "implement-auth").
  - reflexivity.
Defined.

(** C5. For a todo with a non-empty list of files, once the
    analyzer has produced a report and the gate has decided: if the gate
    passed, the todo's status is "completed" and sniff_verified is true;
    if it did not pass and the report could be displayed, the status is
    "needs-revision" and nothing else is written: sniff_verified is left
    as it was before the call (false or absent if it was so), and no
    detail of the failure is stored on the todo. *)
Theorem gate_decides_transition bin run todo_id todos items t d fs w
    analysis w1 ok w2 :
  heap w !! todos = Some (OList items) →
  first_with_id (heap w) todo_id items t d →
  files_of d = VList fs → fs ≠ [] →
  run_sniff_analysis bin run (VList fs)
    (says w [MsgRunning (Z.of_nat (length fs))]) = (Ok analysis, w1) →
  verify_quality_gate analysis d w1 = (Ok ok, w2) →
  (ok = true →
     complete_todo_with_verification bin run todo_id todos w =
       (Ok todos,
        World (<[t := ODict (<["sniff_verified" := VBool true]>
                              (<["status" := VStr "completed"]> d))]>
                 (heap w))
              (printed w2 ++ [MsgCompletedVerified todo_id])
              (sniff_calls w2))) ∧
  (ok = false → ∀ w3,
     display_sniff_issues analysis w2 = (Ok tt, w3) →
     complete_todo_with_verification bin run todo_id todos w =
       (Ok todos,
        World (<[t := ODict (<["status" := VStr "needs-revision"]> d)]>
                 (heap w))
              (printed w3 ++ [MsgNeedsRevision todo_id])
              (sniff_calls w3)) ∧
     only_status_and_flag d (<["status" := VStr "needs-revision"]> d) ∧
     (<["status" := VStr "needs-revision"]> d) !! "sniff_verified" =
       d !! "sniff_verified").
Proof.
  intros Htodos Hfirst Hfiles Hfs Hrun Hgate.
  pose proof Hfirst as (_ & _ & _ & _ & Hid).
  assert (py_truthy (files_of d) = true) as Htruthy.
  { rewrite Hfiles. by destruct fs. }
  pose proof (complete_found bin run todo_id todos items t d w Htodos
                (find_todo_first _ _ _ _ _ Hfirst) Hid) as Hcall.
  rewrite Htruthy, Hfiles in Hcall. cbn [negb py_len] in Hcall.
  rewrite Hrun, Hgate in Hcall.
  split.
  - intros ->. done.
  - intros -> w3 Hshow. rewrite Hshow in Hcall.
    split; [done|]. split.
    + intros k Hk _. by rewrite lookup_insert_ne.
    + by rewrite lookup_insert_ne.
Qed.

Lemma gate_decides_transition_witness :
  complete_todo_with_verification "target/debug/sniff"
    (analyzer_prints (report_of 0 90)) "implement-auth" todos_ref
    (store_of auth_todo) =
  (Ok todos_ref,
   World (<[todo_ref := ODict (<["sniff_verified" := VBool true]>
                                (<["status" := VStr "completed"]>
                                   auth_todo))]>
            (heap (store_of auth_todo)))
         [MsgRunning 2; MsgGatePassed (VInt 90) (VInt 3);
          MsgCompletedVerified "implement-auth"]
         1).
Proof.
  pose (h := heap (store_of auth_todo)).
  refine (proj1 (gate_decides_transition "target/debug/sniff"
            (analyzer_prints (report_of 0 90)) "implement-auth" todos_ref
            [todo_ref] todo_ref auth_todo
            [VStr "src/auth.rs"; VStr "src/middleware/auth.rs"]
            (store_of auth_todo) (report_of 0 90)
            (World h [MsgRunning 2] 1) true
            (World h [MsgRunning 2; MsgGatePassed (VInt 90) (VInt 3)] 1)
            _ _ _ _ _ _) eq_refl).
  - reflexivity.
  - by apply store_of_first with (VStr "implement-auth").
  - reflexivity.
  - discriminate.
  - reflexivity.
  - vm_compute. reflexivity.
Defined.

(** C5: sniff_verified is not reset. A todo verified by an earlier call,
    whose files now have a critical issue, ends with status
    "needs-revision" while its sniff_verified is still true, not false. *)
Lemma failed_recheck_keeps_sniff_verified :
  let out := complete_todo_with_verification "target/debug/sniff"
               (analyzer_prints (report_of 1 90)) "implement-auth" todos_ref
               (store_of verified_auth_todo) in
  let after := <["status" := VStr "needs-revision"]> verified_auth_todo in
  evaluate (report_of 1 90) verified_auth_todo =
    Ok {| passed := false; why := CriticalIssuesExceeded |} ∧
  out.1 = Ok todos_ref ∧
  heap out.2 !! todo_ref = Some (ODict after) ∧
  after !! "status" = Some (VStr "needs-revision") ∧
  after !! "sniff_verified" = Some (VBool true) ∧
  sniff_verified_of after ≠ false.
Proof. vm_compute. repeat split; done. Qed.

(** C8. If every todo of the store satisfies the invariant
    and the todo the call selects is not yet sniff_verified, then after
    the call, however it ends, every todo satisfies the invariant; and a
    todo that is sniff_verified afterwards either was so before and is
    unchanged, or is the selected one, whose files the analyzer reported
    on and whose gate passed. *)
Theorem invariant_preserved bin run todo_id todos w :
  (∀ l d, heap w !! l = Some (ODict d) → task_invariant d) →
  (∀ items t d, heap w !! todos = Some (OList items) →
     first_with_id (heap w) todo_id items t d → sniff_verified_of d = false) →
  ∀ l d',
    heap (complete_todo_with_verification bin run todo_id todos w).2 !! l =
      Some (ODict d') →
    task_invariant d' ∧
    (sniff_verified_of d' = true →
     heap w !! l = Some (ODict d') ∨
     ∃ d analysis w0 w1 w2,
       has_id (heap w) todo_id l d ∧
       run_sniff_analysis bin run (files_of d) w0 = (Ok analysis, w1) ∧
       verify_quality_gate analysis d w1 = (Ok true, w2)).
Proof.
  intros Hinv Hnew l d' Hl.
  destruct (complete_todo_with_verification bin run todo_id todos w)
    as [r w'] eqn:Hcall.
  cbn [snd] in Hl.
  destruct (complete_outcome bin run _ _ _ _ _ Hcall) as [_ [Hsame|Hmut]].
  { rewrite Hsame in Hl. split; [by eapply Hinv|by left]. }
  destruct Hmut as (items & t & d & d1 & Htodos & Hfirst & _ & Hheap & Hd1).
  rewrite Hheap in Hl.
  destruct (decide (l = t)) as [->|Hne].
  2:{ rewrite lookup_insert_ne in Hl by done.
      split; [by eapply Hinv|by left]. }
  rewrite lookup_insert_eq in Hl. injection Hl as <-.
  pose proof (Hnew _ _ _ Htodos Hfirst) as Hflag.
  pose proof Hfirst as (_ & _ & _ & _ & Hid).
  destruct Hd1 as [[Hfiles ->]|[(Hfiles & -> & analysis & w0 & w1 & w2 & Hrun & Hgate)
                               |[Hfiles ->]]].
  - assert (sniff_verified_of (<["status" := VStr "completed"]> d) = false)
      as Hafter.
    { unfold sniff_verified_of. rewrite lookup_insert_ne by done. apply Hflag. }
    split; [|by rewrite Hafter]. intros Hv. congruence.
  - split.
    + intros _. split.
      * by rewrite lookup_insert_ne, lookup_insert_eq.
      * unfold files_of. by rewrite !lookup_insert_ne.
    + intros _. right. by exists d, analysis, w0, w1, w2.
  - assert (sniff_verified_of (<["status" := VStr "needs-revision"]> d) = false)
      as Hafter.
    { unfold sniff_verified_of. rewrite lookup_insert_ne by done. apply Hflag. }
    split; [|by rewrite Hafter]. intros Hv. congruence.
Qed.

Lemma invariant_preserved_witness :
  task_invariant (<["status" := VStr "needs-revision"]> auth_todo).
Proof.
  refine (proj1 (invariant_preserved "target/debug/sniff"
            (analyzer_prints (report_of 1 90)) "implement-auth" todos_ref
            (store_of auth_todo) _ _ todo_ref
            (<["status" := VStr "needs-revision"]> auth_todo) _)).
  - intros l d Hl. apply store_of_dict in Hl as [_ ->]. by intros [=].
  - intros items t d _ (_ & _ & _ & _ & Ht & _).
    apply store_of_dict in Ht as [_ ->]. reflexivity.
  - vm_compute. reflexivity.
Defined.

(** C8: the invariant is not preserved from every state satisfying it.
    The store with the verified todo satisfies the invariant; after a call
    whose gate fails, the todo has status "needs-revision" and
    sniff_verified true. *)
Lemma failed_recheck_breaks_invariant :
  let w := store_of verified_auth_todo in
  let out := complete_todo_with_verification "target/debug/sniff"
               (analyzer_prints (report_of 1 90)) "implement-auth" todos_ref
               w in
  (∀ l d, heap w !! l = Some (ODict d) → task_invariant d) ∧
  ¬ (∀ l d', heap out.2 !! l = Some (ODict d') → task_invariant d').
Proof.
  split.
  - intros l d Hl. apply store_of_dict in Hl as [_ ->].
    intros _. split; reflexivity.
  - intros Hall.
    assert (task_invariant
              (<["status" := VStr "needs-revision"]> verified_auth_todo))
      as Hinv.
    { apply (Hall todo_ref). vm_compute. reflexivity. }
    destruct Hinv as [Hstatus _]; [reflexivity|].
    vm_compute in Hstatus. discriminate.
Qed.

(** C10. Whatever the list, the id and the analyzer: a call that returns,
    returns the reference it was given (otherwise it raises); the list
    object is as it was; and every object of the store is as it was,
    except that a todo whose id is the requested one may differ in its
    ["status"] and ["sniff_verified"] entries. *)
Theorem mutates_in_place bin run todo_id todos w :
  let out := complete_todo_with_verification bin run todo_id todos w in
  (out.1 = Ok todos ∨ ∃ e, out.1 = Raise e) ∧
  heap out.2 !! todos = heap w !! todos ∧
  frame todo_id (heap w) (heap out.2).
Proof.
  cbv zeta.
  destruct (complete_todo_with_verification bin run todo_id todos w)
    as [r w'] eqn:Hcall.
  cbn [fst snd].
  destruct (complete_outcome bin run _ _ _ _ _ Hcall) as [Hr [Hsame|Hmut]].
  { rewrite Hsame. split; [done|]. split; [done|]. intros l. by left. }
  destruct Hmut as (items & t & d & d1 & Htodos & Hfirst & _ & Hheap & Hd1).
  pose proof Hfirst as (_ & _ & _ & _ & Hid).
  pose proof Hid as [Ht _].
  rewrite Hheap. split; [done|]. split.
  - rewrite lookup_insert_ne; [done|]. intros ->. congruence.
  - intros l. destruct (decide (l = t)) as [->|Hne].
    + right. exists d, d1. split; [done|].
      split; [by rewrite lookup_insert_eq|].
      intros k Hk1 Hk2.
      destruct Hd1 as [[_ ->]|[(_ & -> & _)|[_ ->]]];
        by rewrite !lookup_insert_ne.
    + left. by rewrite lookup_insert_ne.
Qed.

(** A report whose details cannot be displayed: the gate fails, the
    display raises before the status is written, and the todo stays as it
    was. *)
Lemma undisplayable_report_leaves_status :
  let report := VDict (list_to_map
    [("critical_issues", VInt 1);
     ("file_results",
      VList [VDict (list_to_map
        [("file_path", VStr "src/auth.rs");
         ("detections",
          VList [VDict (list_to_map [("severity", VNone)])])])])]) in
  let out := complete_todo_with_verification "target/debug/sniff"
               (analyzer_prints report) "implement-auth" todos_ref
               (store_of auth_todo) in
  out.1 = Raise AttributeError ∧ heap out.2 = heap (store_of auth_todo).
Proof. vm_compute. split; reflexivity. Qed.


(** * Further properties *)

(** ** The gate, read backwards *)

Lemma fmt_1f_ok_number (v : pyval) : fmt_1f v = Ok tt → is_number v.
Proof. destruct v as [| | |[|[]|]| | |]; try done; by eexists. Qed.

Lemma py_order_ok_numbers strict (a b : pyval) r :
  py_order strict a b = Ok r → is_number a → is_number b.
Proof.
  intros H [x Hx].
  destruct a as [| | |[|[]|]| | |]; simpl in Hx; try discriminate;
    destruct b as [| | |[|[]|]| | |]; simpl in H; try discriminate;
    by eexists.
Qed.

Lemma py_order_none_l strict (b : pyval) :
  py_order strict VNone b = Raise TypeError.
Proof. done. Qed.

Lemma py_order_none_r strict (a : pyval) :
  py_order strict a VNone = Raise TypeError.
Proof. destruct a as [| | |[|[]|]| | |]; done. Qed.

Lemma verify_quality_gate_true_inv (analysis_result : pyval) (todo : pydict)
    (w w' : world) :
  verify_quality_gate analysis_result todo w = (Ok true, w') →
  ∃ report,
    analysis_result = VDict report ∧ report !! "error" = None ∧
    py_gt (critical_issues_of report) (max_critical_of todo) = Ok false ∧
    py_lt (avg_quality_of report) (min_quality_of todo) = Ok false ∧
    fmt_1f (avg_quality_of report) = Ok tt ∧
    w' = says w [MsgGatePassed (avg_quality_of report)
                               (total_issues_of report)].
Proof.
  destruct analysis_result as [| | | | s | l | report].
  1-4: by unfold verify_quality_gate; run_M.
  - unfold verify_quality_gate. run_M. by destruct (is_substring _ _).
  - unfold verify_quality_gate. run_M. by destruct (existsb _ _).
  - destruct (report !! "error") as [v|] eqn:Herr.
    { unfold verify_quality_gate. run_M. rewrite Herr.
      by rewrite bool_decide_eq_true_2 by eauto. }
    rewrite verify_quality_gate_dict by done.
    destruct (py_gt _ _) as [[]|] eqn:Hgt; try done.
    destruct (py_lt _ _) as [[]|] eqn:Hlt; try done;
      destruct (fmt_1f _) as [[]|] eqn:Hfmt; try done.
    intros [= <-]. by exists report.
Qed.

(** X1. The gate returns [True] only for a report that is a dict without
    the error indicator, whose critical issues do not exceed the maximum,
    whose average quality is a number not below the minimum; and then it
    has printed exactly the passed message. *)
Theorem gate_pass_implies_checks (analysis_result : pyval) (todo : pydict)
    (w w' : world) :
  verify_quality_gate analysis_result todo w = (Ok true, w') →
  ∃ report,
    analysis_result = VDict report ∧ report !! "error" = None ∧
    py_gt (critical_issues_of report) (max_critical_of todo) = Ok false ∧
    py_lt (avg_quality_of report) (min_quality_of todo) = Ok false ∧
    is_number (avg_quality_of report) ∧
    w' = says w [MsgGatePassed (avg_quality_of report)
                               (total_issues_of report)].
Proof.
  intros (report & ? & ? & ? & ? & Hfmt & ?)%verify_quality_gate_true_inv.
  exists report. repeat split; try done. by apply fmt_1f_ok_number.
Qed.

Lemma gate_pass_implies_checks_witness :
  py_gt (VInt 0) (VInt 0) = Ok false ∧ py_lt (VInt 90) (VInt 85) = Ok false.
Proof.
  destruct (gate_pass_implies_checks (report_of 0 90) auth_todo
              (World ∅ [] 0)
              (World ∅ [MsgGatePassed (VInt 90) (VInt 3)] 0))
    as (report & Heq & _ & Hgt & Hlt & _).
  - vm_compute. reflexivity.
  - injection Heq as <-. split; [exact Hgt|exact Hlt].
Defined.

(** X2. A metric missing from the report counts as 0: the gate treats a
    report without critical_issues, average_quality_score or
    total_detections as the same report with that entry set to 0. *)
Theorem missing_metrics_count_as_zero (report todo : pydict) (w : world) :
  (report !! "critical_issues" = None →
     verify_quality_gate (VDict report) todo w =
     verify_quality_gate (VDict (<["critical_issues" := VInt 0]> report))
       todo w) ∧
  (report !! "average_quality_score" = None →
     verify_quality_gate (VDict report) todo w =
     verify_quality_gate
       (VDict (<["average_quality_score" := VInt 0]> report)) todo w) ∧
  (report !! "total_detections" = None →
     verify_quality_gate (VDict report) todo w =
     verify_quality_gate (VDict (<["total_detections" := VInt 0]> report))
       todo w).
Proof.
  unfold verify_quality_gate, py_contains, py_get.
  split; [|split]; intros H;
    rewrite ?lookup_insert_eq, !lookup_insert_ne by done; by rewrite ?H.
Qed.

Lemma missing_metrics_count_as_zero_witness :
  let report : pydict := <["average_quality_score" := VInt 90]> ∅ in
  report !! "critical_issues" = None ∧
  verify_quality_gate (VDict report) auth_todo (World ∅ [] 0) =
  verify_quality_gate (VDict (<["critical_issues" := VInt 0]> report))
    auth_todo (World ∅ [] 0).
Proof.
  split; [reflexivity|].
  apply (proj1 (missing_metrics_count_as_zero
                  (<["average_quality_score" := VInt 90]> ∅) auth_todo
                  (World ∅ [] 0))).
  reflexivity.
Defined.

(** X3. A quality score that is NaN is never below the threshold: a
    report without the error indicator, within the critical-issues limit
    and with average_quality_score NaN passes the gate for every numeric
    min_quality_score. *)
Theorem nan_quality_passes (report todo : pydict) (w : world) :
  report !! "error" = None →
  py_gt (critical_issues_of report) (max_critical_of todo) = Ok false →
  avg_quality_of report = VFloat FNan →
  is_number (min_quality_of todo) →
  verify_quality_gate (VDict report) todo w =
    (Ok true, says w [MsgGatePassed (VFloat FNan) (total_issues_of report)]).
Proof.
  intros Herr Hgt Hnan [q Hq].
  rewrite verify_quality_gate_dict by done. rewrite Hgt, Hnan.
  unfold py_lt.
  by rewrite (py_order_numbers true (VFloat FNan) _ XNan q eq_refl Hq).
Qed.

Lemma nan_quality_passes_witness :
  let report : pydict := <["average_quality_score" := VFloat FNan]> ∅ in
  verify_quality_gate (VDict report) auth_todo (World ∅ [] 0) =
    (Ok true, World ∅ [MsgGatePassed (VFloat FNan) (VInt 0)] 0).
Proof.
  refine (eq_trans
            (nan_quality_passes (<["average_quality_score" := VFloat FNan]> ∅)
               auth_todo (World ∅ [] 0) _ _ _ _) _);
    try reflexivity.
  by eexists.
Defined.

(** X4. A metric that is null is not a failed check but an exception: a
    report without the error indicator whose critical_issues is [None],
    or whose critical issues are within the limit and whose
    average_quality_score is [None], makes the gate raise [TypeError]
    with nothing printed. *)
Theorem null_metric_raises (report todo : pydict) (w : world) :
  report !! "error" = None →
  critical_issues_of report = VNone ∨
  (py_gt (critical_issues_of report) (max_critical_of todo) = Ok false ∧
   avg_quality_of report = VNone) →
  verify_quality_gate (VDict report) todo w = (Raise TypeError, w).
Proof.
  intros Herr [Hc|[Hgt Ha]]; rewrite verify_quality_gate_dict by done.
  - unfold py_gt. by rewrite Hc, py_order_none_r.
  - rewrite Hgt. unfold py_lt. by rewrite Ha, py_order_none_l.
Qed.

Lemma null_metric_raises_witness :
  let report : pydict := <["critical_issues" := VNone]> ∅ in
  verify_quality_gate (VDict report) auth_todo (World ∅ [] 0) =
    (Raise TypeError, World ∅ [] 0).
Proof.
  apply (null_metric_raises (<["critical_issues" := VNone]> ∅) auth_todo
           (World ∅ [] 0)); [reflexivity|by left].
Defined.

(** ** Thresholds move the gate one way *)

Lemma Qlt_bool_false (p q : Q) : Qlt_bool p q = false ↔ (q <= p)%Q.
Proof. unfold Qlt_bool. rewrite negb_false_iff. apply Qle_bool_iff. Qed.

Lemma x_le_fin (p q : Q) : x_le (XFin p) (XFin q) = true → (p <= q)%Q.
Proof.
  unfold x_le. simpl. intros [H|H]%orb_true_iff.
  - unfold Qlt_bool in H. apply negb_true_iff in H.
    destruct (Qlt_le_dec p q) as [Hlt|Hle]; [by apply Qlt_le_weak|].
    apply Qle_bool_iff in Hle. congruence.
  - apply Qeq_bool_iff in H. rewrite H. apply Qle_refl.
Qed.

(** Not below a bound, hence not below a smaller one. *)
Lemma x_lt_false_smaller_bound (a q q' : xnum) :
  x_le q' q = true → x_lt a q = false → x_lt a q' = false.
Proof.
  destruct a as [| |a|], q as [| |q|], q' as [| |q'|]; try done.
  intros Hle%x_le_fin Hlt%Qlt_bool_false. simpl. apply Qlt_bool_false.
  by eapply Qle_trans.
Qed.

(** Not above a bound, hence not above a larger one. *)
Lemma x_lt_false_larger_bound (c m m' : xnum) :
  x_le m m' = true → x_lt m c = false → x_lt m' c = false.
Proof.
  destruct c as [| |c|], m as [| |m|], m' as [| |m'|]; try done.
  intros Hle%x_le_fin Hlt%Qlt_bool_false. simpl. apply Qlt_bool_false.
  by eapply Qle_trans.
Qed.

Lemma py_order_ok_numbers_l strict (a b : pyval) r :
  py_order strict a b = Ok r → is_number b → is_number a.
Proof.
  intros H [x Hx].
  destruct b as [| | |[|[]|]| | |]; simpl in Hx; try discriminate;
    destruct a as [| | |[|[]|]| | |]; simpl in H; try discriminate;
    by eexists.
Qed.

(** X5. Loosening the thresholds never turns a pass into a failure: if
    the gate passes a report for a todo with numeric thresholds, it
    passes the same report, with the same message, for a todo whose
    min_quality_score is not larger and whose max_critical_issues is not
    smaller. *)
Theorem looser_thresholds_keep_pass (analysis_result : pyval)
    (todo todo' : pydict) (w w' : world) :
  is_number (min_quality_of todo) → is_number (max_critical_of todo) →
  py_le (min_quality_of todo') (min_quality_of todo) = Ok true →
  py_le (max_critical_of todo) (max_critical_of todo') = Ok true →
  verify_quality_gate analysis_result todo w = (Ok true, w') →
  verify_quality_gate analysis_result todo' w = (Ok true, w').
Proof.
  intros Nq Nm Hq Hm Hpass.
  apply verify_quality_gate_true_inv in Hpass
    as (report & -> & Herr & Hgt & Hlt & Hfmt & ->).
  pose proof (fmt_1f_ok_number _ Hfmt) as Na.
  pose proof (py_order_ok_numbers_l _ _ _ _ Hq Nq) as Nq'.
  pose proof (py_order_ok_numbers _ _ _ _ Hm Nm) as Nm'.
  pose proof (py_order_ok_numbers _ _ _ _ Hgt Nm) as Nc.
  destruct Nq as [q Eq], Nq' as [q' Eq'], Nm as [m Em], Nm' as [m' Em'],
    Nc as [c Ec], Na as [a Ea].
  unfold py_le, py_gt, py_lt in *.
  rewrite (py_order_numbers _ _ _ _ _ Eq' Eq) in Hq.
  rewrite (py_order_numbers _ _ _ _ _ Em Em') in Hm.
  rewrite (py_order_numbers _ _ _ _ _ Em Ec) in Hgt.
  rewrite (py_order_numbers _ _ _ _ _ Ea Eq) in Hlt.
  injection Hq as Hq. injection Hm as Hm.
  injection Hgt as Hgt. injection Hlt as Hlt.
  rewrite verify_quality_gate_dict by done.
  unfold py_gt, py_lt.
  rewrite (py_order_numbers _ _ _ _ _ Em' Ec).
  rewrite (py_order_numbers _ _ _ _ _ Ea Eq').
  rewrite (x_lt_false_larger_bound _ _ _ Hm Hgt).
  rewrite (x_lt_false_smaller_bound _ _ _ Hq Hlt).
  by rewrite Hfmt.
Qed.

Lemma looser_thresholds_keep_pass_witness :
  verify_quality_gate (report_of 0 90)
    (<["min_quality_score" := VInt 80]> auth_todo) (World ∅ [] 0) =
  (Ok true, World ∅ [MsgGatePassed (VInt 90) (VInt 3)] 0).
Proof.
  apply (looser_thresholds_keep_pass (report_of 0 90) auth_todo
           (<["min_quality_score" := VInt 80]> auth_todo) (World ∅ [] 0)).
  - by eexists.
  - by eexists.
  - reflexivity.
  - reflexivity.
  - vm_compute. reflexivity.
Defined.

(** ** The adapter and its callers *)

Lemma argv_strings (ss : list string) : argv (VStr <$> ss) = Ok ss.
Proof. induction ss as [|s ss IH]; csimpl; [done|]. by rewrite IH. Qed.

Lemma argv_app (xs ys : list pyval) (ss : list string) :
  argv xs = Ok ss →
  argv (xs ++ ys) = match argv ys with
                    | Ok ts => Ok (ss ++ ts)
                    | Raise e => Raise e
                    end.
Proof.
  revert ss. induction xs as [|x xs IH]; simpl; intros ss.
  { intros [= <-]. by destruct (argv ys). }
  destruct x; try done.
  destruct (argv xs) as [ss'|] eqn:Hxs; [|done]. intros [= <-].
  rewrite (IH ss' eq_refl). by destruct (argv ys).
Qed.


Lemma argv_raises_type_error (xs : list pyval) e :
  argv xs = Raise e → e = TypeError.
Proof.
  induction xs as [|x xs IH]; simpl; [done|].
  destruct x; try by intros [= <-].
  destruct (argv xs); [done|]. intros [= <-]. by apply IH.
Qed.

(** X6. The analyzer is started with the fixed command line followed by
    the files, in their order: for a list of strings the adapter's result
    is decided by what the process does on exactly
    [sniff_binary analyze-files --format json --detailed files...]; the
    decoded output is handed back as it is, and a non-zero exit status
    becomes a report holding only the error indicator. *)
Theorem adapter_command_line bin run (files : list string) (w : world) :
  let args := [bin; "analyze-files"; "--format"; "json"; "--detailed"]
                ++ files in
  let w1 := World (heap w) (printed w) (S (sniff_calls w)) in
  run_sniff_analysis bin run (VList (VStr <$> files)) w =
    match run (sniff_calls w) args with
    | Completed (Json v) => (Ok v, w1)
    | Completed NotJson => (Raise JSONDecodeError, w1)
    | CalledProcessError msg =>
        (Ok (VDict {[ "error" := VStr msg ]}), says w1 [MsgSniffFailed msg])
    | RunRaises e => (Raise e, w1)
    end.
Proof.
  cbv zeta. unfold run_sniff_analysis.
  rewrite (argv_app [VStr bin; VStr "analyze-files"; VStr "--format";
                     VStr "json"; VStr "--detailed"] _
             [bin; "analyze-files"; "--format"; "json"; "--detailed"])
    by done.
  rewrite argv_strings. cbn [sniff_calls].
  destruct (run _ _) as [[v|]|msg|e]; done.
Qed.



Lemma verify_quality_gate_errored (analysis_result : pyval) (todo : pydict)
    (w : world) :
  py_contains "error" analysis_result = Ok true →
  verify_quality_gate analysis_result todo w = (Ok false, w).
Proof. intros Herr. unfold verify_quality_gate. run_M. by rewrite Herr. Qed.

(** The display of the adapter's error report: the header and nothing
    else. *)
Lemma display_error_report msg w :
  display_sniff_issues (VDict {[ "error" := VStr msg ]}) w =
    (Ok tt, says w [MsgResultsHeader]).
Proof. done. Qed.

(** X8. A failing analyzer never completes a task: when the todo has a
    non-empty list of files and the process exits with a non-zero
    status, the call returns normally, the todo's status is
    "needs-revision", nothing else on it is written, and the failure was
    printed. *)
Theorem analyzer_failure_needs_revision bin run todo_id todos items t d
    (files : list string) msg w :
  heap w !! todos = Some (OList items) →
  first_with_id (heap w) todo_id items t d →
  files_of d = VList (VStr <$> files) → files ≠ [] →
  run (sniff_calls w)
      ([bin; "analyze-files"; "--format"; "json"; "--detailed"] ++ files) =
    CalledProcessError msg →
  complete_todo_with_verification bin run todo_id todos w =
    (Ok todos,
     World (<[t := ODict (<["status" := VStr "needs-revision"]> d)]> (heap w))
           (printed w ++ [MsgRunning (Z.of_nat (length files));
                          MsgSniffFailed msg; MsgResultsHeader;
                          MsgNeedsRevision todo_id])
           (S (sniff_calls w))).
Proof.
  intros Htodos Hfirst Hfiles Hne Hrun.
  pose proof Hfirst as (_ & _ & _ & _ & Hid).
  rewrite (complete_found bin run todo_id todos items t d w Htodos
             (find_todo_first _ _ _ _ _ Hfirst) Hid).
  rewrite Hfiles.
  assert (py_truthy (VList (VStr <$> files)) = true) as ->
    by by destruct files.
  cbn [negb py_len]. rewrite length_fmap.
  rewrite (run_sniff_analysis_captures_exit_status bin run (VStr <$> files)
             ([bin; "analyze-files"; "--format"; "json"; "--detailed"]
                ++ files) msg); cycle 1.
  { rewrite (argv_app [VStr bin; VStr "analyze-files"; VStr "--format";
                       VStr "json"; VStr "--detailed"] _
               [bin; "analyze-files"; "--format"; "json"; "--detailed"])
      by done.
    by rewrite argv_strings. }
  { done. }
  rewrite verify_quality_gate_errored
    by (simpl; by rewrite lookup_singleton_eq).
  rewrite display_error_report. unfold says. cbn [heap printed sniff_calls].
  by rewrite <- !app_assoc.
Qed.

Lemma analyzer_failure_needs_revision_witness :
  complete_todo_with_verification "target/debug/sniff"
    (λ _ _, CalledProcessError "exit status 2") "implement-auth" todos_ref
    (store_of auth_todo) =
  (Ok todos_ref,
   World (<[todo_ref := ODict (<["status" := VStr "needs-revision"]>
                                auth_todo)]> (heap (store_of auth_todo)))
         [MsgRunning 2; MsgSniffFailed "exit status 2"; MsgResultsHeader;
          MsgNeedsRevision "implement-auth"]
         1).
Proof.
  apply (analyzer_failure_needs_revision "target/debug/sniff"
           (λ _ _, CalledProcessError "exit status 2") "implement-auth"
           todos_ref [todo_ref] todo_ref auth_todo
           ["src/auth.rs"; "src/middleware/auth.rs"] "exit status 2"
           (store_of auth_todo)).
  - reflexivity.
  - by apply store_of_first with (VStr "implement-auth").
  - reflexivity.
  - discriminate.
  - reflexivity.
Defined.

(** ** The life cycle, further *)

Lemma first_with_id_unique h todo_id items t d t' d' :
  first_with_id h todo_id items t d →
  first_with_id h todo_id items t' d' → t' = t ∧ d' = d.
Proof.
  intros H H'.
  pose proof (find_todo_first todo_id items (World h [] 0) t d H) as E.
  pose proof (find_todo_first todo_id items (World h [] 0) t' d' H') as E'.
  rewrite E in E'. injection E' as <-. split; [done|].
  destruct H as (_ & _ & _ & _ & Ht & _), H' as (_ & _ & _ & _ & Ht' & _).
  congruence.
Qed.

(** X9. A failure of the analysis, of the gate or of the display is
    passed on before anything is written: when the call has found its
    todo, whose files are not empty, and [run_sniff_analysis] raises, or
    [verify_quality_gate] raises on its report, or the gate fails and
    [display_sniff_issues] raises, then the call raises and every object
    of the store is as it was. *)
Theorem failing_step_leaves_store bin run todo_id todos items t d n w :
  heap w !! todos = Some (OList items) →
  first_with_id (heap w) todo_id items t d →
  py_truthy (files_of d) = true →
  py_len (files_of d) = Ok n →
  (∃ e w1,
     run_sniff_analysis bin run (files_of d) (says w [MsgRunning n]) =
       (Raise e, w1)) ∨
  (∃ analysis w1 e w2,
     run_sniff_analysis bin run (files_of d) (says w [MsgRunning n]) =
       (Ok analysis, w1) ∧
     verify_quality_gate analysis d w1 = (Raise e, w2)) ∨
  (∃ analysis w1 w2 e w3,
     run_sniff_analysis bin run (files_of d) (says w [MsgRunning n]) =
       (Ok analysis, w1) ∧
     verify_quality_gate analysis d w1 = (Ok false, w2) ∧
     display_sniff_issues analysis w2 = (Raise e, w3)) →
  ∃ e w',
    complete_todo_with_verification bin run todo_id todos w = (Raise e, w') ∧
    heap w' = heap w.
Proof.
  intros Htodos Hfirst Hfiles Hlen Hfail.
  pose proof Hfirst as (_ & _ & _ & _ & Hid).
  rewrite (complete_found bin run todo_id todos items t d w Htodos
             (find_todo_first _ _ _ _ _ Hfirst) Hid).
  rewrite Hfiles, Hlen. cbn [negb].
  pose proof (run_sniff_analysis_heap bin run (files_of d)
                (says w [MsgRunning n])) as [Hh1 _].
  destruct Hfail as [(e & w1 & Hrun)
                    |[(analysis & w1 & e & w2 & Hrun & Hgate)
                     |(analysis & w1 & w2 & e & w3 & Hrun & Hgate & Hshow)]];
    rewrite Hrun in *; cbn [snd says heap] in Hh1.
  - by exists e, w1.
  - pose proof (verify_quality_gate_read_only analysis d w1) as [Hh2 _].
    rewrite Hgate in *. cbn [snd] in Hh2.
    exists e, w2. split; [done|congruence].
  - pose proof (verify_quality_gate_read_only analysis d w1) as [Hh2 _].
    pose proof (display_sniff_issues_read_only analysis w2) as [Hh3 _].
    rewrite Hgate in *. rewrite Hshow in *. cbn [snd] in Hh2, Hh3.
    exists e, w3. split; [done|congruence].
Qed.

Lemma failing_step_leaves_store_witness :
  ∃ e w',
    complete_todo_with_verification "target/debug/sniff"
      (λ _ _, Completed NotJson) "implement-auth" todos_ref
      (store_of auth_todo) = (Raise e, w') ∧
    heap w' = heap (store_of auth_todo).
Proof.
  apply (failing_step_leaves_store "target/debug/sniff"
           (λ _ _, Completed NotJson) "implement-auth" todos_ref
           [todo_ref] todo_ref auth_todo 2 (store_of auth_todo)).
  - reflexivity.
  - by apply store_of_first with (VStr "implement-auth").
  - reflexivity.
  - reflexivity.
  - left. eexists JSONDecodeError, _. vm_compute. reflexivity.
Defined.

(** X10. Several todos with the requested id: only the first one in the
    list is written; every other object of the store, the later todos
    with the same id included, is as it was. *)
Theorem only_first_match_written bin run todo_id todos items t d w l :
  heap w !! todos = Some (OList items) →
  first_with_id (heap w) todo_id items t d →
  l ≠ t →
  heap (complete_todo_with_verification bin run todo_id todos w).2 !! l =
    heap w !! l.
Proof.
  intros Htodos Hfirst Hne.
  destruct (complete_todo_with_verification bin run todo_id todos w)
    as [r w'] eqn:Hcall. cbn [snd].
  destruct (complete_outcome bin run _ _ _ _ _ Hcall) as [_ [->|Hmut]];
    [done|].
  destruct Hmut as (items' & t' & d' & d1 & Htodos' & Hfirst' & _ & -> & _).
  assert (items' = items) as -> by congruence.
  destruct (first_with_id_unique _ _ _ _ _ _ _ Hfirst Hfirst') as [-> _].
  by rewrite lookup_insert_ne.
Qed.

Lemma only_first_match_written_witness :
  let h : gmap loc object :=
    <[1%positive := OList [2%positive; 3%positive]]>
      (<[2%positive := ODict (<["files" := VList []]> auth_todo)]>
         {[ 3%positive := ODict auth_todo ]}) in
  heap (complete_todo_with_verification "target/debug/sniff"
          (analyzer_prints (report_of 0 90)) "implement-auth" 1%positive
          (World h [] 0)).2 !! 3%positive = Some (ODict auth_todo).
Proof.
  intros h.
  refine (eq_trans
    (only_first_match_written "target/debug/sniff"
       (analyzer_prints (report_of 0 90)) "implement-auth" 1%positive
       [2%positive; 3%positive] 2%positive
       (<["files" := VList []]> auth_todo) (World h [] 0) 3%positive
       _ _ _) _).
  - reflexivity.
  - exists [], [3%positive]. split; [done|]. split; [constructor|].
    split; [reflexivity|]. exists (VStr "implement-auth").
    split; reflexivity.
  - discriminate.
  - reflexivity.
Defined.

Lemma find_todo_key_error todo_id before t after d w :
  Forall (has_other_id (heap w) todo_id) before →
  heap w !! t = Some (ODict d) → d !! "id" = None →
  find_todo todo_id (before ++ t :: after) w = (Raise KeyError, w).
Proof.
  intros Hbefore Ht Hid.
  induction Hbefore as [|t0 before (d0 & v0 & Ht0 & Hid0 & Hne) _ IH]; simpl;
    rewrite mbind_unfold; unfold deref_dict.
  - by rewrite Ht, Hid.
  - by rewrite Ht0, Hid0, Hne.
Qed.

(** X11. A todo without an ["id"] entry stops the search: if such a todo
    comes in the list before any todo with the requested id, the call
    raises [KeyError], prints nothing and changes nothing, even when a
    later todo has the id. *)
Theorem todo_without_id_raises bin run todo_id todos before t after d w :
  heap w !! todos = Some (OList (before ++ t :: after)) →
  Forall (has_other_id (heap w) todo_id) before →
  heap w !! t = Some (ODict d) → d !! "id" = None →
  complete_todo_with_verification bin run todo_id todos w =
    (Raise KeyError, w).
Proof.
  intros Htodos Hbefore Ht Hid. unfold complete_todo_with_verification.
  rewrite mbind_unfold. unfold deref_list. rewrite Htodos.
  rewrite mbind_unfold.
  by rewrite (find_todo_key_error todo_id before t after d w).
Qed.

Lemma todo_without_id_raises_witness :
  let h : gmap loc object :=
    <[1%positive := OList [2%positive; 3%positive]]>
      (<[2%positive := ODict (delete "id" auth_todo)]>
         {[ 3%positive := ODict auth_todo ]}) in
  complete_todo_with_verification "target/debug/sniff"
    (analyzer_prints (report_of 0 90)) "implement-auth" 1%positive
    (World h [] 0) =
  (Raise KeyError, World h [] 0).
Proof.
  intros h.
  apply (todo_without_id_raises "target/debug/sniff"
           (analyzer_prints (report_of 0 90)) "implement-auth" 1%positive
           [] 2%positive [3%positive] (delete "id" auth_todo) (World h [] 0)).
  - reflexivity.
  - constructor.
  - reflexivity.
  - reflexivity.
Defined.

(** X12. Checking a verified todo again is harmless when it still
    passes: if the selected todo is already completed with
    sniff_verified [True] and the gate passes on the new report, the
    store after the call is the store before it. *)
Theorem passing_recheck_changes_nothing bin run todo_id todos items t d
    n analysis w w1 w2 :
  heap w !! todos = Some (OList items) →
  first_with_id (heap w) todo_id items t d →
  d !! "status" = Some (VStr "completed") →
  d !! "sniff_verified" = Some (VBool true) →
  py_truthy (files_of d) = true →
  py_len (files_of d) = Ok n →
  run_sniff_analysis bin run (files_of d) (says w [MsgRunning n]) =
    (Ok analysis, w1) →
  verify_quality_gate analysis d w1 = (Ok true, w2) →
  complete_todo_with_verification bin run todo_id todos w =
    (Ok todos,
     World (heap w) (printed w2 ++ [MsgCompletedVerified todo_id])
           (sniff_calls w2)).
Proof.
  intros Htodos Hfirst Hstatus Hflag Hfiles Hlen Hrun Hgate.
  pose proof Hfirst as (_ & _ & _ & _ & Hid).
  rewrite (complete_found bin run todo_id todos items t d w Htodos
             (find_todo_first _ _ _ _ _ Hfirst) Hid).
  rewrite Hfiles, Hlen. cbn [negb]. rewrite Hrun, Hgate.
  rewrite (insert_id d "status") by done.
  rewrite (insert_id d "sniff_verified") by done.
  rewrite insert_id; [done|]. by destruct Hid.
Qed.

Lemma passing_recheck_changes_nothing_witness :
  complete_todo_with_verification "target/debug/sniff"
    (analyzer_prints (report_of 0 90)) "implement-auth" todos_ref
    (store_of verified_auth_todo) =
  (Ok todos_ref,
   World (heap (store_of verified_auth_todo))
         [MsgRunning 2; MsgGatePassed (VInt 90) (VInt 3);
          MsgCompletedVerified "implement-auth"] 1).
Proof.
  pose (h := heap (store_of verified_auth_todo)).
  refine (passing_recheck_changes_nothing "target/debug/sniff"
            (analyzer_prints (report_of 0 90)) "implement-auth" todos_ref
            [todo_ref] todo_ref verified_auth_todo 2 (report_of 0 90)
            (store_of verified_auth_todo)
            (World h [MsgRunning 2] 1)
            (World h [MsgRunning 2; MsgGatePassed (VInt 90) (VInt 3)] 1)
            _ _ _ _ _ _ _ _).
  - reflexivity.
  - by apply store_of_first with (VStr "implement-auth").
  - reflexivity.
  - reflexivity.
  - reflexivity.
  - reflexivity.
  - vm_compute. reflexivity.
  - vm_compute. reflexivity.
Defined.

(** ** The display *)

Lemma says_says w a b : says (says w a) b = says w (a ++ b).
Proof. unfold says. cbn [heap printed sniff_calls]. by rewrite app_assoc. Qed.

(** A loop whose body only prints: what it prints and whether it ends
    normally, from the same facts about the body. [P n msgs] bounds what
    [n] rounds print. *)
Lemma for_each_result {A} (ok : A → bool) (P : nat → list event → Prop)
    (body : A → M unit) (xs : list A) :
  (∀ n, P n []) →
  (∀ n m a b, P n a → P m b → P (n + m)%nat (a ++ b)) →
  (∀ x w, ∃ r msgs, body x w = (r, says w msgs) ∧ P 1%nat msgs ∧
                    (r = Ok tt ↔ ok x = true)) →
  ∀ w, ∃ r msgs, for_each xs body w = (r, says w msgs) ∧
                 P (length xs) msgs ∧ (r = Ok tt ↔ forallb ok xs = true).
Proof.
  intros Hnil Happ Hbody. induction xs as [|x xs IH]; intros w.
  { exists (Ok tt), []. by rewrite says_nil. }
  destruct (Hbody x w) as (r & m1 & E & HP & Hr).
  cbn [for_each forallb length]. rewrite mbind_unfold, E.
  destruct r as [[]|e].
  - destruct (IH (says w m1)) as (r2 & m2 & E2 & HP2 & Hr2).
    exists r2, (m1 ++ m2). rewrite E2, says_says. split; [done|].
    split; [by apply (Happ 1%nat (length xs))|].
    rewrite andb_true_iff. destruct Hr as [Hr _]. rewrite (Hr eq_refl).
    rewrite Hr2. tauto.
  - exists (Raise e), m1. split; [done|]. split.
    + rewrite <- (app_nil_r m1). by apply (Happ 1%nat (length xs)).
    + rewrite andb_true_iff. split; [done|]. intros [Hx _].
      destruct Hr as [_ Hr]. by specialize (Hr Hx).
Qed.

Lemma issue_count_app a b :
  issue_count (a ++ b) = (issue_count a + issue_count b)%nat.
Proof. unfold issue_count. by rewrite List.filter_app, length_app. Qed.

Lemma header_count_app a b :
  header_count (a ++ b) = (header_count a + header_count b)%nat.
Proof. unfold header_count. by rewrite List.filter_app, length_app. Qed.

Lemma fmt_1f_decided (v : pyval) :
  if formats_1f v then fmt_1f v = Ok tt else ∃ e, fmt_1f v = Raise e.
Proof.
  destruct v; unfold formats_1f, fmt_1f; eauto.
  destruct (Z.abs z <? float_overflow); eauto.
Qed.

Ltac count_tac := unfold issue_count, header_count; simpl; lia.

(** One round of the inner loop: one detection. *)
Lemma show_detection_result (detection : pyval) (w : world) :
  ∃ r msgs,
    (severity ← lift (py_get detection "severity" (VStr "unknown"));
     rule ← lift (py_get detection "rule_name" (VStr "unknown"));
     line ← lift (py_get detection "line_number" (VStr "?"));
     snippet ← lift (py_get detection "code_snippet" (VStr ""));
     snippet ← lift (as_str snippet);
     severity ← lift (as_str severity);
     print (MsgIssue severity rule line snippet)) w = (r, says w msgs) ∧
    ((issue_count msgs ≤ 1)%nat ∧ header_count msgs = 0%nat) ∧
    (r = Ok tt ↔ detection_ok detection = true).
Proof.
  destruct detection as [| | | | | |d];
    try (exists (Raise AttributeError), []; rewrite says_nil;
         split; [done|]; split; [split; [count_tac|done]|done]).
  unfold py_get, lift. rewrite !mbind_unfold. cbn [detection_ok].
  destruct (default (VStr "") (d !! "code_snippet")) as [| | | |snippet| |];
    try (exists (Raise AttributeError), []; rewrite says_nil;
         split; [done|]; split; [split; [count_tac|done]|done]).
  cbn [as_str is_str andb]. rewrite !mbind_unfold.
  destruct (default (VStr "unknown") (d !! "severity")) as [| | | |sev| |];
    try (exists (Raise AttributeError), []; rewrite says_nil;
         split; [done|]; split; [split; [count_tac|done]|done]).
  eexists (Ok tt), [_]. split; [done|]. split; [split; [count_tac|done]|done].
Qed.

Lemma length_take_5 {A} (l : list A) : (length (take 5 l) ≤ 5)%nat.
Proof. rewrite length_take. lia. Qed.

Lemma print_says e w : print e w = (Ok tt, says w [e]).
Proof. done. Qed.

Lemma py_get_dict (d : pydict) key dflt :
  py_get (VDict d) key dflt = Ok (default dflt (d !! key)).
Proof. done. Qed.

(** One round of the outer loop: one file result. *)
Lemma show_file_result (file_result : pyval) (w : world) :
  ∃ r msgs,
    (file_path ← lift (py_get file_result "file_path" (VStr "unknown"));
     detections ← lift (py_get file_result "detections" (VList []));
     quality ← lift (py_get file_result "quality_score" (VInt 0));
     if py_truthy detections then
       lift (fmt_1f quality);;
       print (MsgFileHeader file_path quality);;
       shown ← lift (py_slice_to 5 detections);
       shown ← lift (py_iter shown);
       for_each shown (λ detection,
         severity ← lift (py_get detection "severity" (VStr "unknown"));
         rule ← lift (py_get detection "rule_name" (VStr "unknown"));
         line ← lift (py_get detection "line_number" (VStr "?"));
         snippet ← lift (py_get detection "code_snippet" (VStr ""));
         snippet ← lift (as_str snippet);
         severity ← lift (as_str severity);
         print (MsgIssue severity rule line snippet));;
       n ← lift (py_len detections);
       if 5 <? n then print (MsgMoreIssues (n - 5)) else ret tt
     else ret tt) w = (r, says w msgs) ∧
    (issue_count msgs ≤ 5 * header_count msgs)%nat ∧
    (r = Ok tt ↔ file_result_ok file_result = true).
Proof.
  destruct file_result as [| | | | | |d];
    try (exists (Raise AttributeError), []; rewrite says_nil;
         split; [done|]; split; [count_tac|done]).
  rewrite !py_get_dict.
  do 3 (rewrite mbind_unfold; unfold lift at 1).
  cbn [file_result_ok]. cbv zeta.
  set (file_path := default (VStr "unknown") (d !! "file_path")).
  set (detections := default (VList []) (d !! "detections")).
  set (quality := default (VInt 0) (d !! "quality_score")).
  destruct (py_truthy detections) eqn:Htruthy; cbn [negb orb].
  2:{ exists (Ok tt), []. rewrite says_nil.
      split; [done|]. split; [count_tac|done]. }
  rewrite mbind_unfold. unfold lift at 1.
  pose proof (fmt_1f_decided quality) as Hfmt.
  destruct (formats_1f quality); cbn [andb].
  2:{ destruct Hfmt as [e ->]. exists (Raise e), []. rewrite says_nil.
      split; [done|]. split; [count_tac|done]. }
  rewrite Hfmt. rewrite mbind_unfold. unfold print at 1.
  fold (says w [MsgFileHeader file_path quality]).
  rewrite mbind_unfold. unfold lift at 1.
  destruct detections as [| | | |s|l|m] eqn:Hdet; try discriminate;
    try (exists (Raise TypeError), [MsgFileHeader file_path quality];
         split; [done|]; split; [count_tac|done]).
  - (* a non-empty string: its characters are not detections *)
    destruct s as [|c s]; [discriminate|].
    exists (Raise AttributeError), [MsgFileHeader file_path quality].
    split; [done|]. split; [count_tac|done].
  - (* a list *)
    cbn [py_slice_to]. rewrite mbind_unfold. unfold lift at 1.
    cbn [py_iter]. rewrite mbind_unfold.
    match goal with
    | |- context [for_each (take 5 l) ?body ?w0] =>
        destruct (for_each_result detection_ok
                    (λ n msgs, (issue_count msgs ≤ n)%nat ∧
                               header_count msgs = 0%nat)
                    body (take 5 l)
                    ltac:(intros; split; [count_tac|done])
                    ltac:(intros n k a b [? ?] [? ?];
                          rewrite issue_count_app, header_count_app; lia)
                    show_detection_result w0)
          as (r & msgs & -> & [Hissues Hheaders] & Hr)
    end.
    pose proof (length_take_5 l) as Hfive.
    rewrite says_says.
    destruct r as [[]|e].
    + rewrite mbind_unfold. unfold lift at 1. cbn [py_len].
      destruct (5 <? Z.of_nat (length l)).
      * rewrite print_says, says_says.
        eexists (Ok tt), _. split; [done|]. split; [|exact Hr].
        rewrite !issue_count_app, !header_count_app, Hheaders.
        unfold issue_count at 1 3, header_count. simpl. lia.
      * eexists (Ok tt), _. split; [done|]. split; [|exact Hr].
        rewrite !issue_count_app, !header_count_app, Hheaders.
        unfold issue_count at 1, header_count. simpl. lia.
    + eexists (Raise e), _. split; [done|]. split.
      * rewrite !issue_count_app, !header_count_app, Hheaders.
        unfold issue_count at 1, header_count. simpl. lia.
      * split; [done|]. intros H. by apply Hr in H.
Qed.

Lemma not_file_results_of_strings (ks : list string) :
  forallb file_result_ok (VStr <$> ks) = true ↔ ks = [].
Proof. by destruct ks. Qed.

Lemma not_file_results_chars (s : string) :
  forallb file_result_ok (chars s) = true ↔ String.eqb s "" = true.
Proof. by destruct s. Qed.

Lemma display_sniff_issues_spec (analysis_result : pyval) (w : world) :
  ∃ r msgs,
    display_sniff_issues analysis_result w =
      (r, says w (MsgResultsHeader :: msgs)) ∧
    (issue_count msgs ≤ 5 * header_count msgs)%nat ∧
    (r = Ok tt ↔ displayable analysis_result = true).
Proof.
  unfold display_sniff_issues. rewrite mbind_unfold, print_says.
  rewrite mbind_unfold. unfold lift at 1.
  destruct analysis_result as [| | | | | |d];
    try (exists (Raise AttributeError), [];
         split; [done|]; split; [count_tac|done]).
  rewrite py_get_dict. cbn [displayable].
  set (file_results := default (VList []) (d !! "file_results")).
  rewrite mbind_unfold. unfold lift at 1.
  assert (∀ xs : list pyval,
    ∃ r msgs,
      for_each xs (λ file_result,
        file_path ← lift (py_get file_result "file_path" (VStr "unknown"));
        detections ← lift (py_get file_result "detections" (VList []));
        quality ← lift (py_get file_result "quality_score" (VInt 0));
        if py_truthy detections then
          lift (fmt_1f quality);;
          print (MsgFileHeader file_path quality);;
          shown ← lift (py_slice_to 5 detections);
          shown ← lift (py_iter shown);
          for_each shown (λ detection,
            severity ← lift (py_get detection "severity" (VStr "unknown"));
            rule ← lift (py_get detection "rule_name" (VStr "unknown"));
            line ← lift (py_get detection "line_number" (VStr "?"));
            snippet ← lift (py_get detection "code_snippet" (VStr ""));
            snippet ← lift (as_str snippet);
            severity ← lift (as_str severity);
            print (MsgIssue severity rule line snippet));;
          n ← lift (py_len detections);
          if 5 <? n then print (MsgMoreIssues (n - 5)) else ret tt
        else ret tt) (says w [MsgResultsHeader]) =
        (r, says w (MsgResultsHeader :: msgs)) ∧
      (issue_count msgs ≤ 5 * header_count msgs)%nat ∧
      (r = Ok tt ↔ forallb file_result_ok xs = true)) as Hloop.
  { intros xs.
    match goal with
    | |- context [for_each xs ?body ?w0] =>
        destruct (for_each_result file_result_ok
                    (λ _ msgs,
                       (issue_count msgs ≤ 5 * header_count msgs)%nat)
                    body xs
                    ltac:(intros; count_tac)
                    ltac:(intros n k a b ? ?; cbv beta in *;
                          rewrite issue_count_app, header_count_app; lia)
                    show_file_result w0)
          as (r & msgs & -> & Hcount & Hr)
    end.
    rewrite says_says. by exists r, msgs. }
  destruct file_results as [| | | |s|l|m];
    try (exists (Raise TypeError), [];
         split; [done|]; split; [count_tac|done]);
    cbn [py_iter].
  - destruct (Hloop (chars s)) as (r & msgs & E & Hcount & Hr).
    exists r, msgs. split; [done|]. split; [done|].
    by rewrite Hr, not_file_results_chars.
  - apply Hloop.
  - destruct (Hloop (VStr <$> (map_to_list m).*1))
      as (r & msgs & E & Hcount & Hr).
    exists r, msgs. split; [done|]. split; [done|].
    rewrite Hr, not_file_results_of_strings.
    rewrite Nat.eqb_eq, map_size_empty_iff, <- map_to_list_empty_iff.
    split; [apply fmap_nil_inv|by intros ->].
Qed.

(** X13. What the display needs: on every report that is not
    [displayable], [display_sniff_issues] raises; it can return normally
    only on a displayable one. Of the detections of a file only the
    first five are looked at. *)
Theorem display_raises_unless_displayable (analysis_result : pyval)
    (w : world) :
  displayable analysis_result = false →
  ∃ e, (display_sniff_issues analysis_result w).1 = Raise e.
Proof.
  intros Hno.
  destruct (display_sniff_issues_spec analysis_result w)
    as (r & msgs & -> & _ & Hr).
  destruct r as [[]|e]; [|by exists e].
  destruct Hr as [Hr _]. rewrite (Hr eq_refl) in Hno. discriminate.
Qed.

Lemma display_raises_unless_displayable_witness :
  ∃ e,
    (display_sniff_issues
       (VDict (<["file_results" :=
                   VList [VDict (list_to_map
                     [("quality_score", VInt (10 ^ 400));
                      ("detections", VList [VDict ∅])])]]> ∅))
       (World ∅ [] 0)).1 = Raise e.
Proof.
  apply (display_raises_unless_displayable _ (World ∅ [] 0)).
  vm_compute. reflexivity.
Defined.

(** X14. The display starts with the header and shows at most five
    issues per file it lists, whether it ends normally or raises on the
    way. *)
Theorem at_most_five_issues_per_file (analysis_result : pyval) (w : world) :
  ∃ msgs,
    printed (display_sniff_issues analysis_result w).2 =
      printed w ++ MsgResultsHeader :: msgs ∧
    (issue_count msgs ≤ 5 * header_count msgs)%nat.
Proof.
  destruct (display_sniff_issues_spec analysis_result w)
    as (r & msgs & -> & Hcount & _).
  by exists msgs.
Qed.

(** X15. Judging and displaying are observations: neither
    [verify_quality_gate] nor [display_sniff_issues] writes to the store
    or calls the analyzer, whatever report they are given and however
    they end. *)
Theorem gate_and_display_only_print (analysis_result : pyval)
    (todo : pydict) (w : world) :
  let w1 := (verify_quality_gate analysis_result todo w).2 in
  let w2 := (display_sniff_issues analysis_result w).2 in
  (heap w1 = heap w ∧ sniff_calls w1 = sniff_calls w) ∧
  (heap w2 = heap w ∧ sniff_calls w2 = sniff_calls w).
Proof.
  split.
  - apply verify_quality_gate_read_only.
  - apply display_sniff_issues_read_only.
Qed.

(** X16. After a failed gate the todo is marked only if the report can
    be displayed: on a report that is not displayable the call raises
    before the status is written and the store stays as it was; and if
    the call returns, the report was displayable and the status is
    "needs-revision". *)
Theorem failed_gate_marks_only_if_displayable bin run todo_id todos items t d
    fs w analysis w1 w2 :
  heap w !! todos = Some (OList items) →
  first_with_id (heap w) todo_id items t d →
  files_of d = VList fs → fs ≠ [] →
  run_sniff_analysis bin run (VList fs)
    (says w [MsgRunning (Z.of_nat (length fs))]) = (Ok analysis, w1) →
  verify_quality_gate analysis d w1 = (Ok false, w2) →
  let out := complete_todo_with_verification bin run todo_id todos w in
  (displayable analysis = false →
     (∃ e, out.1 = Raise e) ∧ heap out.2 = heap w) ∧
  (∀ r, out.1 = Ok r →
     r = todos ∧ displayable analysis = true ∧
     heap out.2 =
       <[t := ODict (<["status" := VStr "needs-revision"]> d)]> (heap w)).
Proof.
  intros Htodos Hfirst Hfiles Hfs Hrun Hgate. cbv zeta.
  pose proof Hfirst as (_ & _ & _ & _ & Hid).
  rewrite (complete_found bin run todo_id todos items t d w Htodos
             (find_todo_first _ _ _ _ _ Hfirst) Hid).
  rewrite Hfiles.
  assert (py_truthy (VList fs) = true) as -> by by destruct fs.
  cbn [negb py_len]. rewrite Hrun, Hgate.
  pose proof (run_sniff_analysis_heap bin run (VList fs)
                (says w [MsgRunning (Z.of_nat (length fs))])) as [Hh1 _].
  rewrite Hrun in Hh1. cbn [snd says heap] in Hh1.
  pose proof (verify_quality_gate_read_only analysis d w1) as [Hh2 _].
  rewrite Hgate in Hh2. cbn [snd] in Hh2.
  destruct (display_sniff_issues_spec analysis w2)
    as (r & msgs & -> & _ & Hr).
  destruct r as [[]|e]; cbn [fst snd says heap].
  - destruct Hr as [Hr _]. rewrite (Hr eq_refl). split; [done|].
    by intros r [= <-].
  - split; [|done]. intros _. split; [by exists e|congruence].
Qed.

Lemma failed_gate_marks_only_if_displayable_witness :
  let out := complete_todo_with_verification "target/debug/sniff"
               (analyzer_prints (report_of 1 90)) "implement-auth" todos_ref
               (store_of auth_todo) in
  todos_ref = todos_ref ∧ displayable (report_of 1 90) = true ∧
  heap out.2 =
    <[todo_ref := ODict (<["status" := VStr "needs-revision"]> auth_todo)]>
      (heap (store_of auth_todo)).
Proof.
  pose (h := heap (store_of auth_todo)).
  refine (proj2 (failed_gate_marks_only_if_displayable "target/debug/sniff"
            (analyzer_prints (report_of 1 90)) "implement-auth" todos_ref
            [todo_ref] todo_ref auth_todo
            [VStr "src/auth.rs"; VStr "src/middleware/auth.rs"]
            (store_of auth_todo) (report_of 1 90)
            (World h [MsgRunning 2] 1)
            (World h [MsgRunning 2; MsgCriticalFound (VInt 1) (VInt 0)] 1)
            _ _ _ _ _ _) todos_ref _).
  - reflexivity.
  - by apply store_of_first with (VStr "implement-auth").
  - reflexivity.
  - discriminate.
  - reflexivity.
  - vm_compute. reflexivity.
  - vm_compute. reflexivity.
Defined.

(** X17. One call, at most one analysis: whatever the list, the id and
    the outcome, [complete_todo_with_verification] runs the analyzer
    once or not at all. *)
Theorem at_most_one_analysis bin run todo_id todos w :
  let n' := sniff_calls
              (complete_todo_with_verification bin run todo_id todos w).2 in
  n' = sniff_calls w ∨ n' = S (sniff_calls w).
Proof.
  cbv zeta.
  destruct (heap w !! todos) as [[|items]|] eqn:Htodos.
  1,3: unfold complete_todo_with_verification;
       rewrite mbind_unfold; unfold deref_list; rewrite Htodos; by left.
  pose proof (find_todo_world todo_id items w) as Hw.
  destruct (find_todo todo_id items w) as [[[t|]|e] w0] eqn:Hfind;
    simpl in Hw; subst w0.
  - destruct (find_todo_found _ _ _ _ _ Hfind) as [d Hfirst].
    pose proof Hfirst as (_ & _ & _ & _ & Hid).
    rewrite (complete_found _ _ _ _ _ _ _ _ Htodos Hfind Hid).
    destruct (py_truthy (files_of d)); cbn [negb]; [|by left].
    destruct (py_len (files_of d)) as [n|e]; [|by left].
    pose proof (run_sniff_analysis_heap bin run (files_of d)
                  (says w [MsgRunning n])) as [_ Hc1].
    destruct (run_sniff_analysis _ _ _ _) as [[analysis|e] w1];
      cbn [snd says sniff_calls] in Hc1; [|by right].
    pose proof (verify_quality_gate_read_only analysis d w1) as [_ Hc2].
    destruct (verify_quality_gate analysis d w1) as [[[]|e] w2];
      cbn [snd] in Hc2.
    + right. cbn [snd sniff_calls]. congruence.
    + pose proof (display_sniff_issues_read_only analysis w2) as [_ Hc3].
      destruct (display_sniff_issues analysis w2) as [[[]|e] w3];
        cbn [snd] in Hc3; right; cbn [snd sniff_calls]; congruence.
    + right. cbn [snd]. congruence.
  - rewrite (complete_not_found _ _ _ _ _ _ Htodos Hfind). by left.
  - unfold complete_todo_with_verification.
    rewrite mbind_unfold. unfold deref_list. rewrite Htodos.
    rewrite mbind_unfold, Hfind. by left.
Qed.

(** ** The script *)

Lemma script_bind_unfold {A B} (m : Script A) (k : A → Script B) sw :
  (m ≫= k) sw = match m sw with
                | (Ok a, sw') => k a sw'
                | (Raise e, sw') => (Raise e, sw')
                end.
Proof. done. Qed.

Lemma call_lift {A} (r : result A) sw : call (lift r) sw = (r, sw).
Proof. destruct sw. unfold call, lift. cbn. by rewrite app_nil_r. Qed.

Lemma call_deref_dict t d sw :
  s_heap sw !! t = Some (ODict d) → call (deref_dict t) sw = (Ok d, sw).
Proof.
  intros H. destruct sw. unfold call, deref_dict. cbn in *. rewrite H.
  cbn. by rewrite app_nil_r.
Qed.

Lemma call_deref_list t items sw :
  s_heap sw !! t = Some (OList items) →
  call (deref_list t) sw = (Ok items, sw).
Proof.
  intros H. destruct sw. unfold call, deref_list. cbn in *. rewrite H.
  cbn. by rewrite app_nil_r.
Qed.

Lemma call_set_item t d key v sw :
  s_heap sw !! t = Some (ODict d) →
  call (set_item t key v) sw =
    (Ok tt, ScriptWorld (<[t := ODict (<[key := v]> d)]> (s_heap sw))
                        (s_printed sw) (s_calls sw)).
Proof.
  intros H. destruct sw. unfold call, set_item. cbn in *. rewrite H.
  cbn. by rewrite app_nil_r.
Qed.

Lemma has_other_id_insert h todo_id t l o :
  t ≠ l → has_other_id h todo_id t → has_other_id (<[l := o]> h) todo_id t.
Proof.
  intros Hne (d & v & Ht & Hid & Heq). exists d, v.
  by rewrite lookup_insert_ne.
Qed.

(** A call that finds a todo with files and returns: one analysis, and
    the todo is verified or sent back. *)
Lemma complete_found_returns bin run todo_id todos items t d w r w' :
  heap w !! todos = Some (OList items) →
  first_with_id (heap w) todo_id items t d →
  py_truthy (files_of d) = true →
  complete_todo_with_verification bin run todo_id todos w = (Ok r, w') →
  r = todos ∧ sniff_calls w' = S (sniff_calls w) ∧
  (heap w' = <[t := ODict (<["sniff_verified" := VBool true]>
                            (<["status" := VStr "completed"]> d))]> (heap w) ∨
   heap w' = <[t := ODict (<["status" := VStr "needs-revision"]> d)]>
               (heap w)).
Proof.
  intros Htodos Hfirst Hfiles.
  pose proof Hfirst as (_ & _ & _ & _ & Hid).
  rewrite (complete_found bin run todo_id todos items t d w Htodos
             (find_todo_first _ _ _ _ _ Hfirst) Hid).
  rewrite Hfiles. cbn [negb].
  destruct (py_len (files_of d)) as [n|e]; [|done].
  pose proof (run_sniff_analysis_heap bin run (files_of d)
                (says w [MsgRunning n])) as [_ Hc1].
  destruct (run_sniff_analysis _ _ _ _) as [[analysis|e] w1];
    cbn [snd says sniff_calls] in Hc1; [|done].
  pose proof (verify_quality_gate_read_only analysis d w1) as [_ Hc2].
  destruct (verify_quality_gate analysis d w1) as [[[]|e] w2];
    cbn [snd] in Hc2; [| |done].
  - intros [= <- <-]. cbn [heap sniff_calls].
    split; [done|]. split; [congruence|by left].
  - pose proof (display_sniff_issues_read_only analysis w2) as [_ Hc3].
    destruct (display_sniff_issues analysis w2) as [[[]|e] w3];
      cbn [snd] in Hc3; [|done].
    intros [= <- <-]. cbn [heap sniff_calls].
    split; [done|]. split; [congruence|by right].
Qed.

Section ScriptProofs.
Variable run : nat → list string → run_outcome.

(** One round of the loop on a todo still in state "todo". *)
Lemma process_todo_round workflow todos before todo rest after d content
    todo_id sw r sw' :
  s_heap sw !! todos = Some (OList (before ++ todo :: after)) →
  Forall (has_other_id (s_heap sw) todo_id) before →
  s_heap sw !! todo = Some (ODict d) →
  d !! "status" = Some (VStr "todo") →
  d !! "content" = Some content →
  d !! "id" = Some (VStr todo_id) →
  py_truthy (files_of d) = true →
  process_todos run workflow (todo :: rest) todos sw = (Ok r, sw') →
  ∃ sw1,
    process_todos run workflow rest todos sw1 = (Ok r, sw') ∧
    s_calls sw1 = S (s_calls sw) ∧
    (s_heap sw1 =
       <[todo := ODict (<["sniff_verified" := VBool true]>
                         (<["status" := VStr "completed"]> d))]> (s_heap sw) ∨
     s_heap sw1 =
       <[todo := ODict (<["status" := VStr "needs-revision"]> d)]>
         (s_heap sw)).
Proof.
  intros Htodos Hbefore Htodo Hstatus Hcontent Hid Hfiles.
  assert (todos ≠ todo) as Hne by (intros ->; congruence).
  assert (Forall (λ t, t ≠ todo) before) as Hbefore_ne.
  { eapply Forall_impl; [exact Hbefore|].
    intros t (d0 & v0 & Ht & Hid0 & Hneq) ->.
    assert (d0 = d) as -> by congruence.
    assert (v0 = VStr todo_id) as -> by congruence.
    simpl in Hneq. by rewrite String.eqb_refl in Hneq. }
  cbn [process_todos].
  rewrite script_bind_unfold, (call_deref_dict _ _ _ Htodo).
  rewrite script_bind_unfold, call_lift. unfold get_item at 1.
  rewrite Hstatus. cbn [py_eq]. rewrite String.eqb_refl.
  rewrite script_bind_unfold, call_lift. unfold get_item at 1.
  rewrite Hcontent.
  rewrite script_bind_unfold. unfold script_print at 1.
  set (sw_a := ScriptWorld _ _ _).
  rewrite script_bind_unfold.
  rewrite (call_set_item todo d "status" (VStr "in-progress") sw_a Htodo).
  set (d1 := <["status" := VStr "in-progress"]> d).
  set (sw_b := ScriptWorld _ _ _).
  assert (s_heap sw_b !! todo = Some (ODict d1)) as Htodo1
    by (cbn; by rewrite lookup_insert_eq).
  rewrite script_bind_unfold, (call_deref_dict _ _ _ Htodo1).
  rewrite script_bind_unfold, call_lift. unfold get_item at 1.
  assert (d1 !! "id" = Some (VStr todo_id)) as ->
    by (unfold d1; by rewrite lookup_insert_ne).
  rewrite script_bind_unfold, call_lift. cbn [str_argument].
  rewrite script_bind_unfold. unfold call at 1.
  destruct (complete_todo_with_verification workflow run todo_id todos
              (World (s_heap sw_b) [] (s_calls sw_b))) as [[r0|e] w1]
    eqn:Hcall; [|done].
  apply complete_found_returns
    with (items := before ++ todo :: after) (t := todo) (d := d1)
    in Hcall as (-> & Hcalls & Hheap).
  - intros Hrest. eexists. split; [exact Hrest|].
    subst sw_b sw_a. cbn [s_calls s_heap sniff_calls heap] in *.
    split; [done|].
    unfold d1 in Hheap. rewrite !insert_insert_eq in Hheap.
    exact Hheap.
  - cbn. by rewrite lookup_insert_ne.
  - exists before, after. split; [done|]. split.
    + cbn [heap s_heap sw_b sw_a].
      rewrite Forall_forall in Hbefore, Hbefore_ne. apply Forall_forall.
      intros t Ht. apply has_other_id_insert; auto.
    + split; [done|]. exists (VStr todo_id). split.
      * unfold d1. by rewrite lookup_insert_ne.
      * simpl. apply String.eqb_refl.
  - unfold files_of, d1. rewrite lookup_insert_ne by done. apply Hfiles.
Qed.

End ScriptProofs.

Section ScriptTheorems.
Variable run : nat → list string → run_outcome.

Lemma example_workflow_spec sw todos sw' :
  example_enhanced_workflow run sw = (Ok todos, sw') →
  ∃ t1 t2 d1 d2,
    (s_heap sw !! t1 = None ∧ s_heap sw !! t2 = None ∧
     s_heap sw !! todos = None ∧ t1 ≠ t2) ∧
    s_heap sw' !! todos = Some (OList [t1; t2]) ∧
    (s_heap sw' !! t1 = Some (ODict d1) ∧ settled example_todo_1 d1) ∧
    (s_heap sw' !! t2 = Some (ODict d2) ∧ settled example_todo_2 d2) ∧
    s_calls sw' = S (S (s_calls sw)) ∧
    (∀ l, is_Some (s_heap sw !! l) → s_heap sw' !! l = s_heap sw !! l).
Proof.
  unfold example_enhanced_workflow.
  rewrite script_bind_unfold. unfold alloc at 1.
  set (h0 := s_heap sw). set (t1 := fresh (dom h0)).
  assert (h0 !! t1 = None) as Ht1
    by (apply not_elem_of_dom, is_fresh).
  rewrite script_bind_unfold. unfold alloc at 1. cbn [s_heap s_printed s_calls].
  set (h1 := <[t1 := ODict example_todo_1]> h0). set (t2 := fresh (dom h1)).
  assert (h1 !! t2 = None) as Ht2
    by (apply not_elem_of_dom, is_fresh).
  rewrite script_bind_unfold. unfold alloc at 1. cbn [s_heap s_printed s_calls].
  set (h2 := <[t2 := ODict example_todo_2]> h1). set (l := fresh (dom h2)).
  assert (h2 !! l = None) as Hl
    by (apply not_elem_of_dom, is_fresh).
  assert (t2 ≠ t1) as H21.
  { intros E. rewrite E in Ht2. unfold h1 in Ht2.
    by rewrite lookup_insert_eq in Ht2. }
  assert (l ≠ t2) as Hl2.
  { intros E. rewrite E in Hl. unfold h2 in Hl.
    by rewrite lookup_insert_eq in Hl. }
  assert (l ≠ t1) as Hl1.
  { intros E. rewrite E in Hl. unfold h2, h1 in Hl.
    rewrite lookup_insert_ne in Hl by done.
    by rewrite lookup_insert_eq in Hl. }
  assert (h0 !! t2 = None) as Ht2'
    by (unfold h1 in Ht2; by rewrite lookup_insert_ne in Ht2).
  assert (h0 !! l = None) as Hl'
    by (unfold h2, h1 in Hl; by rewrite !lookup_insert_ne in Hl).
  set (h3 := <[l := OList [t1; t2]]> h2).
  set (sw3 := ScriptWorld h3 (s_printed sw) (s_calls sw)).
  assert (s_heap sw3 !! l = Some (OList [t1; t2])) as Hlist
    by (cbn; unfold h3; by rewrite lookup_insert_eq).
  assert (s_heap sw3 !! t1 = Some (ODict example_todo_1)) as Hd1.
  { cbn. unfold h3, h2, h1.
    rewrite !lookup_insert_ne by done. by rewrite lookup_insert_eq. }
  assert (s_heap sw3 !! t2 = Some (ODict example_todo_2)) as Hd2.
  { cbn. unfold h3, h2.
    rewrite lookup_insert_ne by done. by rewrite lookup_insert_eq. }
  rewrite script_bind_unfold, (call_deref_list _ _ _ Hlist).
  intros Hloop.
  apply (process_todo_round run _ l [] t1 [t2] [t2] example_todo_1
           (VStr "Implement user authentication system") "implement-auth")
    in Hloop as (sw4 & Hloop & Hcalls4 & Hheap4); try done.
  assert (∃ d1, settled example_todo_1 d1 ∧
                s_heap sw4 = <[t1 := ODict d1]> h3) as (d1 & Hset1 & Hh4).
  { destruct Hheap4 as [E|E]; eexists; (split; [|exact E]);
      [by left|by right]. }
  clear Hheap4.
  assert (d1 !! "id" = Some (VStr "implement-auth")) as Hid1
    by (destruct Hset1 as [-> | ->]; reflexivity).
  apply (process_todo_round run _ l [t1] t2 [] [] example_todo_2
           (VStr "Add input validation") "add-validation")
    in Hloop as (sw5 & Hloop & Hcalls5 & Hheap5); try done.
  2:{ rewrite Hh4. by rewrite lookup_insert_ne. }
  2:{ constructor; [|constructor]. exists d1, (VStr "implement-auth").
      rewrite Hh4, lookup_insert_eq. done. }
  2:{ rewrite Hh4. by rewrite lookup_insert_ne. }
  assert (∃ d2, settled example_todo_2 d2 ∧
                s_heap sw5 = <[t2 := ODict d2]> (<[t1 := ODict d1]> h3))
    as (d2 & Hset2 & Hh5).
  { rewrite Hh4 in Hheap5.
    destruct Hheap5 as [E|E]; eexists; (split; [|exact E]);
      [by left|by right]. }
  clear Hheap5.
  cbn [process_todos] in Hloop. injection Hloop as <- <-.
  exists t1, t2, d1, d2. rewrite Hh5.
  split; [done|]. split.
  { rewrite !lookup_insert_ne by done. apply Hlist. }
  split.
  { split; [|done]. rewrite lookup_insert_ne by done.
    by rewrite lookup_insert_eq. }
  split.
  { split; [|done]. by rewrite lookup_insert_eq. }
  split; [by rewrite Hcalls5, Hcalls4|].
  intros l0 [o Hl0].
  assert (l0 ≠ t1 ∧ l0 ≠ t2 ∧ l0 ≠ l) as (? & ? & ?)
    by (repeat split; intros ->; congruence).
  unfold h3, h2, h1. by rewrite !lookup_insert_ne.
Qed.

(** X18. The example workflow settles both of its todos: whatever the
    analyzer does, if [example_enhanced_workflow] returns, it returns a
    new list of two new todos, each either completed with sniff_verified
    [True] or in "needs-revision" with no sniff_verified entry, and
    otherwise as written in the script; the analyzer has run exactly
    twice and no object that existed before is touched. *)
Theorem example_workflow_settles_todos sw todos sw' :
  example_enhanced_workflow run sw = (Ok todos, sw') →
  ∃ t1 t2 d1 d2,
    (s_heap sw !! t1 = None ∧ s_heap sw !! t2 = None ∧
     s_heap sw !! todos = None ∧ t1 ≠ t2) ∧
    s_heap sw' !! todos = Some (OList [t1; t2]) ∧
    (s_heap sw' !! t1 = Some (ODict d1) ∧ settled example_todo_1 d1) ∧
    (s_heap sw' !! t2 = Some (ODict d2) ∧ settled example_todo_2 d2) ∧
    s_calls sw' = S (S (s_calls sw)) ∧
    (∀ l, is_Some (s_heap sw !! l) → s_heap sw' !! l = s_heap sw !! l).
Proof. apply example_workflow_spec. Qed.

(** The line of the final listing for a todo the workflow has settled. *)
Lemma final_line_round todo before d content sw :
  s_heap sw !! todo = Some (ODict d) →
  settled before d →
  before !! "content" = Some content →
  before !! "sniff_verified" = None →
  ∃ line,
    (d ← call (deref_dict todo);
     status ← call (lift (get_item d "status"));
     emoji ← call (lift (status_emoji status));
     content ← call (lift (get_item d "content"));
     status ← call (lift (get_item d "status"));
     script_print (MsgFinalLine emoji (sniff_verified_of d) content status))
      sw =
      (Ok tt, ScriptWorld (s_heap sw) (s_printed sw ++ [line]) (s_calls sw)) ∧
    final_line content line.
Proof.
  intros Htodo Hsettled Hcontent Hflag.
  rewrite script_bind_unfold, (call_deref_dict _ _ _ Htodo).
  destruct Hsettled as [-> | ->].
  - eexists. split; [|by left].
    rewrite script_bind_unfold, call_lift. unfold get_item at 1.
    rewrite lookup_insert_ne, lookup_insert_eq by done.
    rewrite script_bind_unfold, call_lift. cbn [status_emoji String.eqb].
    cbv zeta. unfold sniff_verified_of. rewrite lookup_insert_eq.
    rewrite script_bind_unfold, call_lift. unfold get_item at 1.
    rewrite !lookup_insert_ne, Hcontent by done.
    rewrite script_bind_unfold, call_lift. unfold get_item at 1.
    rewrite lookup_insert_ne, lookup_insert_eq by done.
    done.
  - eexists. split; [|by right].
    rewrite script_bind_unfold, call_lift. unfold get_item at 1.
    rewrite lookup_insert_eq.
    rewrite script_bind_unfold, call_lift. cbn [status_emoji String.eqb].
    cbv zeta. unfold sniff_verified_of. rewrite lookup_insert_ne, Hflag by done.
    rewrite script_bind_unfold, call_lift. unfold get_item at 1.
    rewrite !lookup_insert_ne, Hcontent by done.
    rewrite script_bind_unfold, call_lift. unfold get_item at 1.
    rewrite lookup_insert_eq.
    done.
Qed.

(** X19. What the script shows at the end: if [main] returns, its output
    ends with the header of the final listing and one line per todo, in
    order, each either the completed icon with the verified mark and
    status "completed", or the revision icon without the mark and status
    "needs-revision"; no todo is shown as todo, in progress or unknown. *)
Theorem main_final_listing sw sw' :
  main run sw = (Ok tt, sw') →
  ∃ shown line1 line2,
    s_printed sw' = shown ++ [MsgFinalHeader; line1; line2] ∧
    final_line (VStr "Implement user authentication system") line1 ∧
    final_line (VStr "Add input validation") line2.
Proof.
  unfold main. rewrite script_bind_unfold.
  destruct (example_enhanced_workflow run sw) as [[todos|e] sw1] eqn:Hwf;
    [|done].
  apply example_workflow_spec in Hwf
    as (t1 & t2 & d1 & d2 & _ & Hlist & [Hd1 Hs1] & [Hd2 Hs2] & _).
  rewrite script_bind_unfold. unfold script_print at 1.
  set (sw2 := ScriptWorld _ _ _).
  rewrite script_bind_unfold, (call_deref_list todos [t1; t2] sw2 Hlist).
  cbn [script_for_each]. rewrite script_bind_unfold. cbv beta zeta.
  destruct (final_line_round t1 example_todo_1 d1
              (VStr "Implement user authentication system") sw2
              Hd1 Hs1 eq_refl eq_refl) as (line1 & -> & Hline1).
  set (sw3 := ScriptWorld _ _ _).
  rewrite script_bind_unfold. cbv beta zeta.
  destruct (final_line_round t2 example_todo_2 d2
              (VStr "Add input validation") sw3
              Hd2 Hs2 eq_refl eq_refl) as (line2 & -> & Hline2).
  intros [= <-]. exists (s_printed sw1), line1, line2.
  split; [|done]. cbn. by rewrite <- !app_assoc.
Qed.

End ScriptTheorems.

Lemma example_workflow_settles_todos_witness :
  s_calls (example_enhanced_workflow
             (analyzer_prints (report_of 0 90)) (ScriptWorld ∅ [] 0)).2 =
  2%nat.
Proof.
  destruct (example_workflow_settles_todos
              (analyzer_prints (report_of 0 90))
              (ScriptWorld ∅ [] 0) 3%positive
              (example_enhanced_workflow
                 (analyzer_prints (report_of 0 90)) (ScriptWorld ∅ [] 0)).2)
    as (t1 & t2 & d1 & d2 & _ & _ & _ & _ & Hcalls & _).
  - vm_compute. reflexivity.
  - exact Hcalls.
Defined.

Lemma main_final_listing_witness :
  ∃ shown line1 line2,
    s_printed (main (analyzer_prints (report_of 0 90))
                 (ScriptWorld ∅ [] 0)).2 =
      shown ++ [MsgFinalHeader; line1; line2] ∧
    final_line (VStr "Implement user authentication system") line1 ∧
    final_line (VStr "Add input validation") line2.
Proof.
  apply (main_final_listing (analyzer_prints (report_of 0 90))
           (ScriptWorld ∅ [] 0)).
  vm_compute. reflexivity.
Defined.

